(** * early-fakenews-detection: the training and evaluation driver (main.py)

    A shallow embedding of [main.py]: device selection, drop-last batching,
    the evaluation loop with its two accuracy accumulators, the training loop
    with its shared hidden-state buffer and its per-epoch checkpoints, and the
    entry point.

    Python integers are [Z]; [None]-able arguments are [option]; exceptions
    are values of [Exn] threaded through a state-and-error monad over a
    [World] that holds the model object, the tensor arena, the checkpoint
    files and the two output streams.  The collaborators that are imported by
    [main.py] but live elsewhere (the network, the optimiser, the sampler, the
    collation function) are the fields of the class [Torch].

    Left out: the [tqdm] progress bars of lines 58, 88 and 89, whose output
    on standard error depends on timing (so no property below speaks of
    standard error across a loop); the formatting of floats in the printed
    lines; the checks [optim.Adam], [torch.device] and [model.to] make on
    the learning rate and on the device, and the device a checkpoint's
    tensors were saved from (the properties that rely on them are stated
    for a run on the CPU with a learning rate that is not negative); and
    failures of the operating system on [os.makedirs] and [torch.save]
    (the properties that rely on a write say what they assume of the
    files in place). *)

From Stdlib Require Import ZArith QArith Lia Ascii.
From stdpp Require Import base option list strings pretty gmap.

Local Open Scope Z_scope.

(** ** Python values used by the driver *)

Inductive Exn : Type :=
  | TypeError
  | ValueError
  | ZeroDivisionError
  | FileNotFoundError
  | RuntimeError
  | SystemExit (code : Z)
  | CollaboratorError (who : string).

(** Truthiness of an optional integer ([if args.cuda]): [None] and [0] are
    falsy. *)
Definition truthy_int (x : option Z) : bool :=
  match x with
  | None => false
  | Some n => negb (n =? 0)
  end.

(** Truthiness of an optional string ([if args.test]): [None] and the empty
    string are falsy. *)
Definition truthy_str (x : option string) : bool :=
  match x with
  | None => false
  | Some EmptyString => false
  | Some (String _ _) => true
  end.

Definition is_sep (c : Ascii.ascii) : bool := Ascii.eqb c "/"%char.

Definition starts_with_sep (s : string) : bool :=
  match s with
  | EmptyString => false
  | String c _ => is_sep c
  end.

Fixpoint ends_with_sep (s : string) : bool :=
  match s with
  | EmptyString => false
  | String c EmptyString => is_sep c
  | String _ rest => ends_with_sep rest
  end.

(** [posixpath.join] for two components whose first is already a string. *)
Definition path_join (a b : string) : string :=
  if starts_with_sep b then b
  else if (String.length a =? 0)%nat || ends_with_sep a then a +:+ b
  else a +:+ "/" +:+ b.

(** [os.path.join(a, b)] where [a] may be [None]: [os.fspath(None)] raises
    [TypeError]. *)
Definition os_path_join (a : option string) (b : string) : Exn + string :=
  match a with
  | None => inl TypeError
  | Some a' => inr (path_join a' b)
  end.

(** The directories above a path, outermost first: the prefixes that end
    right before a separator.  [os.makedirs] creates them with the leaf. *)
Fixpoint parents_from (seen rest : string) : list string :=
  match rest with
  | EmptyString => []
  | String c rest' =>
      (if is_sep c && negb (String.length seen =? 0)%nat then [seen] else [])
      ++ parents_from (seen +:+ String c EmptyString) rest'
  end.

Definition parents (path : string) : list string :=
  parents_from EmptyString path.

(** Python's true division of two integers.  The float it returns is kept
    as the exact rational it rounds. *)
Definition truediv (a b : Z) : Exn + Q :=
  if b =? 0 then inl ZeroDivisionError
  else inr (Qmake (Z.sgn b * a) (Z.to_pos (Z.abs b))).

(** [sum] and [len] of a list of integers. *)
Definition py_sum (l : list Z) : Z := foldl Z.add 0 l.
Definition py_len (l : list Z) : Z := Z.of_nat (length l).

(** ** Command line *)

Record Args : Type := {
  a_config : string;
  a_cuda : option Z;
  a_logdir : option string;
  a_test : option string;
  a_input : string;
  a_topic_feature : string;
  a_learning_rate : Q;
  a_batch_size : Z;
  a_epoch : Z
}.

(** ** Device selection (load_model, line 28) *)

Definition select_device (cuda : option Z) : string :=
  if truthy_int cuda
  then match cuda with
       | Some n => "cuda:" +:+ pretty n
       | None => "cpu"
       end
  else "cpu".

Definition is_cuda (dev : string) : bool := String.prefix "cuda:" dev.

(** ** Drop-last batching (the DataLoader of load_model, line 47) *)

Section Batching.
Context {A : Type}.

(** The batch sampler with [drop_last=True]: full batches only.  [fuel]
    bounds the number of batches; [length l] always suffices. *)
Fixpoint chunks_fuel (fuel : nat) (bs : nat) (l : list A) : list (list A) :=
  match fuel with
  | O => []
  | S fuel' =>
      if (length l <? bs)%nat then []
      else take bs l :: chunks_fuel fuel' bs (drop bs l)
  end.

Definition drop_last_chunks (bs : nat) (l : list A) : list (list A) :=
  chunks_fuel (length l) bs l.
End Batching.

(** ** Evaluation accounting (predict, lines 69-76) *)

(** One iteration of the inner loop: [o] is the predicted class, [t] the true
    label, the pair holds [true_acc] and [false_acc]. *)
Definition account (acc : list Z * list Z) (ot : Z * Z) : list Z * list Z :=
  let '(true_acc, false_acc) := acc in
  let '(o, t) := ot in
  if t =? 1 then (true_acc ++ [o], false_acc)
  else if t =? 0 then
    if o =? 1 then (true_acc, false_acc ++ [0])
    else if o =? 0 then (true_acc, false_acc ++ [1])
    else (true_acc, false_acc)
  else (true_acc, false_acc).

(** [for o, t in zip(output.tolist(), labels.tolist())]. *)
Definition account_batch (acc : list Z * list Z) (output labels : list Z)
  : list Z * list Z :=
  foldl account acc (zip output labels).

(** ** State and exceptions *)

Section Monad.
Context {St : Type}.

(** A computation over a state [St] that returns a value or raises; the
    state reached when an exception is raised is kept. *)
Definition M (A : Type) : Type := St -> (Exn + A) * St.

Definition mret {A} (a : A) : M A := fun w => (inr a, w).

Definition mbind {A B} (c : M A) (k : A -> M B) : M B :=
  fun w =>
    match c w with
    | (inl e, w') => (inl e, w')
    | (inr a, w') => k a w'
    end.

Definition raise {A} (e : Exn) : M A := fun w => (inl e, w).

Definition lift {A} (r : Exn + A) : M A := fun w => (r, w).

Definition gets {A} (f : St -> A) : M A := fun w => (inr (f w), w).

Definition modify (f : St -> St) : M unit := fun w => (inr tt, f w).

Fixpoint foldM {A B} (f : A -> B -> M A) (a : A) (l : list B) : M A :=
  match l with
  | [] => mret a
  | b :: l' => mbind (f a b) (fun a' => foldM f a' l')
  end.
End Monad.

Arguments M : clear implicits.

Notation "'let*' x ':=' c 'in' k" := (mbind c (fun x => k))
  (at level 10, x pattern, c at level 100, k at level 200).

(** ** The collaborators *)

(** The [model] section of the configuration file. *)
Record ModelConfig : Type := {
  input_size : Z;
  hidden_size : Z;
  rnn_layers : Z;
  out_channels : Z;
  height : Z;
  cnn_layers : Z;
  topic_size : Z;
  linear_hidden_size : Z;
  linear_layers : Z;
  output_size : Z
}.

(** What [main.py] imports and does not define: [SeqDataset] and
    [collate_fn] (utils.data), [DetectModel] (model), and from torch the
    random sampler, autograd, gradient clipping and Adam.  Tensors of floats
    stay abstract; a buffer is a flat list of [scalar].
    [state_dict_matches current saved] tells whether [saved] has the keys
    and the shapes of the model's [current] parameters, which is what the
    strict [load_state_dict] demands. *)
Class Torch : Type := {
  Raw : Type;
  Item : Type;
  Seqs : Type;
  Tweets : Type;
  seq_dataset : list Raw -> list Item;
  collate_fn : list Item -> Seqs * Tweets * list Z;
  shuffle : nat -> list Item -> list Item;
  shuffle_perm : forall k l, Permutation (shuffle k l) l;
  scalar : Type;
  szero : scalar;
  Params : Type;
  Grads : Type;
  OptState : Type;
  Logits : Type;
  Loss : Type;
  init_params : ModelConfig -> Params;
  state_dict_matches : Params -> Params -> bool;
  no_grads : Grads;
  forward : Params -> Seqs -> Tweets -> list scalar -> Logits * list scalar;
  softmax_argmax : Logits -> list Z;
  Norm : Type;
  criterion : Logits -> list Z -> Loss;
  backward : Loss -> Params -> Grads -> Grads;
  clip_grad_norm : Grads -> Z -> Grads * Norm;
  adam_init : Params -> Q -> OptState;
  adam_step : OptState -> Params -> Grads -> OptState * Params
}.

Section Driver.
Context `{T : Torch}.

(** ** The world the driver runs in *)

(** The dictionary handed to [torch.save] (train, lines 116-120). *)
Record Checkpoint : Type := {
  ck_epoch : Z;
  ck_state_dict : Params;
  ck_optimizer : OptState
}.

(** What the process reads and cannot change: the directory of the script
    and the outcome of each read of a collaborator's file ([None] and
    [false] when the read fails). *)
Record Env : Type := {
  e_script_dir : string;
  e_config : option ModelConfig;
  e_topic_feature : bool;
  e_input : option (list Raw)
}.

Inductive Line : Type :=
  | LText (msg : string)
  | LAcc (label : string) (total count : Z) (ratio : Q)
  | LStep (step : nat) (loss : Loss) (norm : Norm)
  | LTraceback (e : Exn).

(** Calls on the collaborators, in the order they happen.  A forward call
    records the autograd mode it ran under, and the address and the
    contents of the hidden-state buffer it was given. *)
Inductive Event : Type :=
  | EvLoadConfig
  | EvTopicLoad (dir : string)
  | EvReadInput (file : string)
  | EvDataset (size : nat)
  | EvModelInit
  | EvForward (grad_enabled : bool) (addr : nat) (h : list scalar)
  | EvBackward
  | EvOptimStep.

Record World : Type := {
  w_env : Env;
  w_params : Params;
  w_grads : Grads;
  w_device : string;
  w_grad_enabled : bool;
  w_heap : list (list scalar);
  w_dirs : gset string;
  w_files : gmap string Checkpoint;
  w_rng : nat;
  w_stdout : list Line;
  w_stderr : list Line;
  w_log : list Event
}.

Definition set_params (p : Params) (w : World) : World :=
  {| w_env := w_env w; w_params := p; w_grads := w_grads w;
     w_device := w_device w; w_grad_enabled := w_grad_enabled w;
     w_heap := w_heap w; w_dirs := w_dirs w; w_files := w_files w;
     w_rng := w_rng w; w_stdout := w_stdout w; w_stderr := w_stderr w;
     w_log := w_log w |}.

Definition set_grads (g : Grads) (w : World) : World :=
  {| w_env := w_env w; w_params := w_params w; w_grads := g;
     w_device := w_device w; w_grad_enabled := w_grad_enabled w;
     w_heap := w_heap w; w_dirs := w_dirs w; w_files := w_files w;
     w_rng := w_rng w; w_stdout := w_stdout w; w_stderr := w_stderr w;
     w_log := w_log w |}.

Definition set_device (d : string) (w : World) : World :=
  {| w_env := w_env w; w_params := w_params w; w_grads := w_grads w;
     w_device := d; w_grad_enabled := w_grad_enabled w;
     w_heap := w_heap w; w_dirs := w_dirs w; w_files := w_files w;
     w_rng := w_rng w; w_stdout := w_stdout w; w_stderr := w_stderr w;
     w_log := w_log w |}.

Definition set_heap (h : list (list scalar)) (w : World) : World :=
  {| w_env := w_env w; w_params := w_params w; w_grads := w_grads w;
     w_device := w_device w; w_grad_enabled := w_grad_enabled w;
     w_heap := h; w_dirs := w_dirs w; w_files := w_files w;
     w_rng := w_rng w; w_stdout := w_stdout w; w_stderr := w_stderr w;
     w_log := w_log w |}.

Definition set_dirs (d : gset string) (w : World) : World :=
  {| w_env := w_env w; w_params := w_params w; w_grads := w_grads w;
     w_device := w_device w; w_grad_enabled := w_grad_enabled w;
     w_heap := w_heap w; w_dirs := d; w_files := w_files w;
     w_rng := w_rng w; w_stdout := w_stdout w; w_stderr := w_stderr w;
     w_log := w_log w |}.

Definition set_files (f : gmap string Checkpoint) (w : World) : World :=
  {| w_env := w_env w; w_params := w_params w; w_grads := w_grads w;
     w_device := w_device w; w_grad_enabled := w_grad_enabled w;
     w_heap := w_heap w; w_dirs := w_dirs w; w_files := f;
     w_rng := w_rng w; w_stdout := w_stdout w; w_stderr := w_stderr w;
     w_log := w_log w |}.

Definition set_rng (n : nat) (w : World) : World :=
  {| w_env := w_env w; w_params := w_params w; w_grads := w_grads w;
     w_device := w_device w; w_grad_enabled := w_grad_enabled w;
     w_heap := w_heap w; w_dirs := w_dirs w; w_files := w_files w;
     w_rng := n; w_stdout := w_stdout w; w_stderr := w_stderr w;
     w_log := w_log w |}.

Definition set_stdout (l : list Line) (w : World) : World :=
  {| w_env := w_env w; w_params := w_params w; w_grads := w_grads w;
     w_device := w_device w; w_grad_enabled := w_grad_enabled w;
     w_heap := w_heap w; w_dirs := w_dirs w; w_files := w_files w;
     w_rng := w_rng w; w_stdout := l; w_stderr := w_stderr w;
     w_log := w_log w |}.

Definition set_stderr (l : list Line) (w : World) : World :=
  {| w_env := w_env w; w_params := w_params w; w_grads := w_grads w;
     w_device := w_device w; w_grad_enabled := w_grad_enabled w;
     w_heap := w_heap w; w_dirs := w_dirs w; w_files := w_files w;
     w_rng := w_rng w; w_stdout := w_stdout w; w_stderr := l;
     w_log := w_log w |}.

Definition set_log (l : list Event) (w : World) : World :=
  {| w_env := w_env w; w_params := w_params w; w_grads := w_grads w;
     w_device := w_device w; w_grad_enabled := w_grad_enabled w;
     w_heap := w_heap w; w_dirs := w_dirs w; w_files := w_files w;
     w_rng := w_rng w; w_stdout := w_stdout w; w_stderr := w_stderr w;
     w_log := l |}.

Definition Run (A : Type) : Type := M World A.

(** ** Primitive operations *)

Definition emit (e : Event) : Run unit :=
  modify (fun w => set_log (w_log w ++ [e]) w).

(** [print] and [tqdm.write] both write to standard output. *)
Definition print (l : Line) : Run unit :=
  modify (fun w => set_stdout (w_stdout w ++ [l]) w).

(** [torch.zeros(d1, ..., dn)]: a fresh buffer in the arena; a negative
    dimension is refused. *)
Definition torch_zeros (dims : list Z) : Run nat :=
  fun w =>
    if forallb (fun d => 0 <=? d) dims
    then (inr (length (w_heap w)),
          set_heap
            (w_heap w ++ [replicate (Z.to_nat (foldr Z.mul 1 dims)) szero]) w)
    else (inl RuntimeError, w).

(** [h.data.zero_()]: every cell of the buffer at [addr] is overwritten,
    the buffer stays where it is. *)
Definition zero_ (addr : nat) : Run unit :=
  modify (fun w =>
    set_heap (alter (fun h => map (fun _ => szero) h) addr (w_heap w)) w).

(** [model(sequences, tweets, h0)].  The call runs under whatever autograd
    mode is current, reads the buffer at [h0] and may write it. *)
Definition call_model (sequences : Seqs) (tweets : Tweets) (h0 : nat)
  : Run Logits :=
  fun w =>
    match w_heap w !! h0 with
    | None => (inl RuntimeError, w)
    | Some h =>
        let '(out, h') := forward (w_params w) sequences tweets h in
        (inr out,
         set_log (w_log w ++ [EvForward (w_grad_enabled w) h0 h])
           (set_heap (<[h0 := h']> (w_heap w)) w))
    end.

(** ** The data loader *)

Record DataLoader : Type := {
  dl_dataset : list Item;
  dl_batch_size : nat
}.

(** [DataLoader(dataset, batch_size=..., shuffle=True, drop_last=True,
    collate_fn=collate_fn)]; a batch size that is not positive is a
    [ValueError]. *)
Definition DataLoader_new (dataset : list Item) (batch_size : Z)
  : Exn + DataLoader :=
  if batch_size <=? 0 then inl ValueError
  else inr {| dl_dataset := dataset;
              dl_batch_size := Z.to_nat batch_size |}.

(** The index batches of the [k]-th pass: shuffle, then cut into full
    batches. *)
Definition sample_batches (dl : DataLoader) (k : nat) : list (list Item) :=
  drop_last_chunks (dl_batch_size dl) (shuffle k (dl_dataset dl)).

(** [for ... in enumerate(dataloader)]: one pass, each batch collated. *)
Definition dl_iter (dl : DataLoader) : Run (list (Seqs * Tweets * list Z)) :=
  fun w =>
    (inr (map collate_fn (sample_batches dl (w_rng w))),
     set_rng (S (w_rng w)) w).

Definition enumerate {A} (l : list A) : list (nat * A) := imap pair l.

Definition py_range (n : Z) : list Z := map Z.of_nat (seq 0 (Z.to_nat n)).

(** ** predict (lines 52-79) *)

Definition predict_batch (h0 : nat) (acc : list Z * list Z)
    (batch : Seqs * Tweets * list Z) : Run (list Z * list Z) :=
  let '(sequences, tweets, labels) := batch in
  let* output := call_model sequences tweets h0 in
  let output := softmax_argmax output in
  mret (account_batch acc output labels).

(** The loop of lines 59-76, returning [true_acc] and [false_acc]. *)
Definition predict_loop (dl : DataLoader) (config : ModelConfig)
  : Run (list Z * list Z) :=
  let* h0 := torch_zeros [rnn_layers config; Z.of_nat (dl_batch_size dl);
                          hidden_size config] in
  let* batches := dl_iter dl in
  foldM (predict_batch h0) ([], []) batches.

(** One of the three final [print] calls: the arguments of [format] are
    evaluated first, so a failing division prints nothing. *)
Definition print_acc (label : string) (acc : list Z) : Run unit :=
  let* ratio := lift (truediv (py_sum acc) (py_len acc)) in
  print (LAcc label (py_sum acc) (py_len acc) ratio).

(** Lines 77-79.  The last line divides [sum(true_acc + false_acc)] by
    [len(true_acc) + len(false_acc)], which is the length of the
    concatenation. *)
Definition predict (dl : DataLoader) (config : ModelConfig) : Run unit :=
  let* acc := predict_loop dl config in
  let '(true_acc, false_acc) := acc in
  let* _ := print_acc "True acc" true_acc in
  let* _ := print_acc "False acc" false_acc in
  print_acc "Total acc" (true_acc ++ false_acc).

(** ** train (lines 82-122) *)

Definition train_batch (h0 : nat) (optimizer : OptState)
    (sb : nat * (Seqs * Tweets * list Z)) : Run OptState :=
  let '(step, (sequences, tweets, labels)) := sb in
  let* _ := modify (set_grads no_grads) in
  let* _ := zero_ h0 in
  let* output := call_model sequences tweets h0 in
  let loss := criterion output labels in
  let* _ := modify (fun w =>
              set_grads (backward loss (w_params w) (w_grads w)) w) in
  let* _ := emit EvBackward in
  let* norm := (fun w =>
              let '(g, n) := clip_grad_norm (w_grads w) 5 in
              (inr n, set_grads g w)) in
  let* optimizer' := (fun w =>
              let '(o, p) := adam_step optimizer (w_params w) (w_grads w) in
              (inr o, set_params p w)) in
  let* _ := emit EvOptimStep in
  let* _ := if (step mod 30 =? 0)%nat
            then print (LStep step loss norm) else mret tt in
  mret optimizer'.

Definition os_path_exists (path : string) : Run bool :=
  gets (fun w =>
    bool_decide (path ∈ w_dirs w) || bool_decide (is_Some (w_files w !! path))).

(** [os.makedirs(path)]: the leaf and every directory above it. *)
Definition os_makedirs (path : string) : Run unit :=
  modify (fun w =>
    set_dirs ({[ path ]} ∪ list_to_set (parents path) ∪ w_dirs w) w).

(** [torch.save(state, file)].  The write is taken to succeed: what it
    needs of the directory in place is a hypothesis where it matters. *)
Definition torch_save (state : Checkpoint) (file : string) : Run unit :=
  modify (fun w => set_files (<[file := state]> (w_files w)) w).

Definition ckpt_name (n : Z) : string := pretty n +:+ ".ckpt".

(** Lines 111-122, at the end of the epoch numbered [epoch]. *)
Definition save_checkpoint (args : Args) (epoch : Z) (optimizer : OptState)
  : Run unit :=
  match a_logdir args with
  | None => mret tt
  | Some logdir =>
      let* script_dir := gets (fun w => e_script_dir (w_env w)) in
      let path := path_join script_dir logdir in
      let* present := os_path_exists path in
      let* _ := if present then mret tt else os_makedirs path in
      let* state := gets (fun w =>
                      {| ck_epoch := epoch;
                         ck_state_dict := w_params w;
                         ck_optimizer := optimizer |}) in
      let* _ := torch_save state (path_join path (ckpt_name (epoch + 1))) in
      print (LText ("[+] " +:+ ckpt_name epoch +:+ " saved"))
  end.

Definition train_epoch (args : Args) (dl : DataLoader) (h0 : nat)
    (optimizer : OptState) (epoch : Z) : Run OptState :=
  let* batches := dl_iter dl in
  let* optimizer' := foldM (train_batch h0) optimizer (enumerate batches) in
  let* _ := save_checkpoint args epoch optimizer' in
  mret optimizer'.

Definition train (args : Args) (dl : DataLoader) (config : ModelConfig)
  : Run unit :=
  let* optimizer := gets (fun w =>
                      adam_init (w_params w) (a_learning_rate args)) in
  let* h0 := torch_zeros [rnn_layers config; Z.of_nat (dl_batch_size dl);
                          hidden_size config] in
  let* _ := foldM (train_epoch args dl h0) optimizer
              (py_range (a_epoch args)) in
  mret tt.

(** ** load_model (lines 18-49) *)

(** A read of a collaborator's file: its content, or the collaborator's
    exception. *)
Definition external {A} (who : string) (read : World -> option A) : Run A :=
  fun w =>
    match read w with
    | Some a => (inr a, w)
    | None => (inl (CollaboratorError who), w)
    end.

Definition usage_message : string := "[-] No log directory option".

(** [sys.exit(code)] raises [SystemExit]. *)
Definition sys_exit {A} (code : Z) : Run A := raise (SystemExit code).

(** Lines 41-43 and 143-145: the guard on a missing log directory. *)
Definition require_logdir (args : Args) : Run unit :=
  match a_logdir args with
  | None => let* _ := print (LText usage_message) in sys_exit 1
  | Some _ => mret tt
  end.

Definition torch_load (file : string) : Run Checkpoint :=
  fun w =>
    match w_files w !! file with
    | Some ck => (inr ck, w)
    | None => (inl FileNotFoundError, w)
    end.

(** [model.load_state_dict(saved)], strict: a state that does not match
    the model's parameters is refused with a [RuntimeError]. *)
Definition load_state_dict (saved : Params) : Run unit :=
  fun w =>
    if state_dict_matches (w_params w) saved
    then (inr tt, set_params saved w)
    else (inl RuntimeError, w).

Definition load_model (args : Args) (config : ModelConfig)
  : Run (list Item * DataLoader * string) :=
  let* _ := emit (EvTopicLoad (a_topic_feature args)) in
  let* _ := external "TopicFeature.load"
              (fun w => if e_topic_feature (w_env w) then Some tt else None) in
  let* _ := emit (EvReadInput (a_input args)) in
  let* data := external "open" (fun w => e_input (w_env w)) in
  let dataset := seq_dataset data in
  let* _ := emit (EvDataset (length dataset)) in
  let device := select_device (a_cuda args) in
  let* _ := modify (set_params (init_params config)) in
  let* _ := emit EvModelInit in
  let* _ :=
    if truthy_str (a_test args) then
      let* file := lift (os_path_join (a_logdir args)
                           (default EmptyString (a_test args))) in
      let* checkpoint := torch_load file in
      let* _ := load_state_dict (ck_state_dict checkpoint) in
      require_logdir args
    else mret tt in
  let* _ := modify (set_device device) in
  let* dataloader := lift (DataLoader_new dataset (a_batch_size args)) in
  mret (dataset, dataloader, device).

(** ** The entry point (lines 125-149) *)

Definition main (args : Args) : Run unit :=
  let* _ := emit EvLoadConfig in
  let* config_json := external "json.load" (fun w => e_config (w_env w)) in
  let* loaded := load_model args config_json in
  let '(dataset, dataloader, device) := loaded in
  if truthy_str (a_test args) then
    let* _ := require_logdir args in
    predict dataloader config_json
  else train args dataloader config_json.

(** The interpreter around [main]: an exit status, and a traceback on
    standard error for an exception that nothing caught. *)
Definition run_main (args : Args) (w : World) : Z * World :=
  match main args w with
  | (inr _, w') => (0, w')
  | (inl (SystemExit code), w') => (code, w')
  | (inl e, w') => (1, set_stderr (w_stderr w' ++ [LTraceback e]) w')
  end.

(** The world a fresh process starts in: nothing printed, nothing
    allocated, autograd on (torch's default). *)
Definition initial_world (env : Env) (p : Params)
    (dirs : gset string) (files : gmap string Checkpoint) : World :=
  {| w_env := env; w_params := p; w_grads := no_grads;
     w_device := "cpu"; w_grad_enabled := true;
     w_heap := []; w_dirs := dirs; w_files := files;
     w_rng := 0%nat; w_stdout := []; w_stderr := []; w_log := [] |}.
End Driver.

(** ** A small instance of the collaborators

    An item is a feature with its label, the network adds its single
    parameter to the feature and scribbles on the hidden-state buffer, the
    sampler keeps the order, and the optimiser counts its steps. *)

Definition toy_collate (l : list (Z * Z)) : list Z * unit * list Z :=
  (map fst l, tt, map snd l).

Definition toy : Torch := {|
  Raw := Z * Z;
  Item := Z * Z;
  Seqs := list Z;
  Tweets := unit;
  seq_dataset := id;
  collate_fn := toy_collate;
  shuffle := fun _ l => l;
  shuffle_perm := fun _ l => Permutation_refl l;
  scalar := Z;
  szero := 0;
  Params := Z;
  Grads := Z;
  OptState := nat;
  Logits := list Z;
  Loss := unit;
  Norm := unit;
  init_params := fun _ => 0;
  state_dict_matches := fun _ _ => true;
  no_grads := 0;
  forward := fun p s _ h => (map (fun x => x + p) s, map (fun _ => 7) h);
  softmax_argmax := id;
  criterion := fun _ _ => tt;
  backward := fun _ _ g => g + 1;
  clip_grad_norm := fun g _ => (g, tt);
  adam_init := fun _ _ => 0%nat;
  adam_step := fun o p g => (S o, p + g)
|}.

Definition toy_args (test logdir : option string) (bs epochs : Z) : Args :=
  {| a_config := "config.json"; a_cuda := None; a_logdir := logdir;
     a_test := test; a_input := "data.jsonl"; a_topic_feature := "topics";
     a_learning_rate := 1 # 5; a_batch_size := bs; a_epoch := epochs |}.

Definition toy_config : ModelConfig :=
  {| input_size := 1; hidden_size := 2; rnn_layers := 1; out_channels := 1;
     height := 1; cnn_layers := 1; topic_size := 1; linear_hidden_size := 1;
     linear_layers := 1; output_size := 2 |}.

Definition toy_env (data : list (Z * Z)) : Env (T := toy) :=
  {| e_script_dir := "/srv/app"; e_config := Some toy_config;
     e_topic_feature := true;
     e_input := (Some data : option (list (@Raw toy))) |}.

Definition toy_world (data : list (Z * Z)) : World (T := toy) :=
  initial_world (T := toy) (toy_env data) 0 ∅ ∅.

(** ** The accounting policy as the specification words it

    The true accumulator holds the raw prediction of every record labelled 1;
    the false accumulator holds, for every record labelled 0 whose prediction
    is 1 or 0, the bit [1 - prediction]. *)

Definition true_outcomes (pairs : list (Z * Z)) : list Z :=
  map fst (filter (fun ot => snd ot = 1) pairs).

Definition false_outcomes (pairs : list (Z * Z)) : list Z :=
  map (fun ot => 1 - fst ot)
    (filter (fun ot => snd ot = 0 /\ (fst ot = 1 \/ fst ot = 0)) pairs).

(** ** Vocabulary of the properties *)

(** [file] is the entry called [name] of the directory [dir]. *)
Definition entry_of (dir name file : string) : Prop :=
  file = dir +:+ "/" +:+ name \/
  ((dir = EmptyString \/ ends_with_sep dir = true) /\ file = dir +:+ name).

(** [dir] is the log directory [logdir] as the training loop resolves it:
    [logdir] itself when it is absolute, otherwise the entry [logdir] of
    the script's directory. *)
Definition resolved_logdir (script_dir logdir dir : string) : Prop :=
  (starts_with_sep logdir = true /\ dir = logdir) \/
  (starts_with_sep logdir = false /\ entry_of script_dir logdir dir).

Section Vocabulary.
Context `{T : Torch}.

(** A logged call is harmless for the buffer at [h0]: if it is a forward
    call, it was given that very buffer, holding zeros only. *)
Definition sees_zero (h0 : nat) (ev : Event) : Prop :=
  match ev with
  | EvForward _ addr h => addr = h0 /\ Forall (fun x => x = szero) h
  | _ => True
  end.

(** What a whole epoch keeps: the arena's size, the environment and the
    autograd mode; its calls all satisfy [sees_zero h0]. *)
Definition epoch_rel (h0 : nat) (w w' : World) : Prop :=
  length (w_heap w') = length (w_heap w) /\
  w_env w' = w_env w /\
  w_grad_enabled w' = w_grad_enabled w /\
  exists evs, w_log w' = w_log w ++ evs /\ Forall (sees_zero h0) evs.

(** What the batches of an epoch keep on top of that: the files and the
    directories. *)
Definition batch_rel (h0 : nat) (w w' : World) : Prop :=
  epoch_rel h0 w w' /\ w_files w' = w_files w /\ w_dirs w' = w_dirs w.

(** The address [h0] holds a buffer of the arena. *)
Definition h0_allocated (h0 : nat) (w : World) : Prop :=
  (h0 < length (w_heap w))%nat.

(** A logged call is a forward call made under autograd mode [g]. *)
Definition forward_under (g : bool) (ev : Event) : Prop :=
  match ev with
  | EvForward g' _ _ => g' = g
  | _ => False
  end.

(** What the evaluation loop keeps: the parameters, the gradients, the
    autograd mode, the arena's size and standard output; it only makes
    forward calls, under the mode it started in. *)
Definition eval_rel (w w' : World) : Prop :=
  w_params w' = w_params w /\ w_grads w' = w_grads w /\
  w_grad_enabled w' = w_grad_enabled w /\
  length (w_heap w') = length (w_heap w) /\
  w_stdout w' = w_stdout w /\
  exists evs, w_log w' = w_log w ++ evs /\
              Forall (forward_under (w_grad_enabled w)) evs.

(** What a whole evaluation pass keeps. *)
Definition eval_frame (w w' : World) : Prop :=
  w_params w' = w_params w /\ w_grads w' = w_grads w /\
  w_grad_enabled w' = w_grad_enabled w /\
  w_stdout w' = w_stdout w /\
  exists evs, w_log w' = w_log w ++ evs /\
              Forall (forward_under (w_grad_enabled w)) evs.
End Vocabulary.

(** ** Vocabulary of the further properties *)

(** A prediction and a label that are both classes of the binary task. *)
Definition binary_pair (ot : Z * Z) : Prop :=
  (fst ot = 0 \/ fst ot = 1) /\ (snd ot = 0 \/ snd ot = 1).

(** The records of a batch whose prediction equals their label. *)
Definition correct_pairs (pairs : list (Z * Z)) : list (Z * Z) :=
  filter (fun ot => fst ot = snd ot) pairs.

(** The command line with another value of [--test]. *)
Definition with_test (test : option string) (args : Args) : Args :=
  {| a_config := a_config args; a_cuda := a_cuda args;
     a_logdir := a_logdir args; a_test := test; a_input := a_input args;
     a_topic_feature := a_topic_feature args;
     a_learning_rate := a_learning_rate args;
     a_batch_size := a_batch_size args; a_epoch := a_epoch args |}.

Section FurtherVocabulary.
Context `{T : Torch}.









End FurtherVocabulary.

(** ** Runs of the small instance *)

(** The evaluation set of the accounting example: features are the
    predictions the toy network makes, paired with the true labels. *)
Definition example_set : list (Z * Z) := [(1, 1); (0, 1); (1, 0); (0, 0)].

Definition example_loader : DataLoader (T := toy) :=
  {| dl_dataset := (example_set : list (@Item toy)); dl_batch_size := 4 |}.

(** Thirty-five records and a loader of batch size 32 over them. *)
Definition records35 : list (@Item toy) :=
  replicate 35 ((0, 0) : @Item toy).

Definition loader35 : DataLoader (T := toy) :=
  {| dl_dataset := records35; dl_batch_size := 32 |}.

(** An evaluation set without a record labelled 1, and a world whose log
    directory holds a checkpoint to evaluate. *)
Definition false_only_set : list (Z * Z) := [(1, 0); (0, 0)].

Definition saved_checkpoint : Checkpoint (T := toy) :=
  {| ck_epoch := 0; ck_state_dict := (0 : @Params toy);
     ck_optimizer := (0%nat : @OptState toy) |}.

Definition evaluation_world (data : list (Z * Z)) : World (T := toy) :=
  initial_world (T := toy) (toy_env data) 0 {[ "logs" ]}
    {[ "logs/1.ckpt" := saved_checkpoint ]}.

Definition false_only_loader : DataLoader (T := toy) :=
  {| dl_dataset := (false_only_set : list (@Item toy)); dl_batch_size := 2 |}.

(** A training run's world once the hidden-state buffer is allocated. *)
Definition training_world : World (T := toy) :=
  set_heap (T := toy) [[0; 0; 0; 0]] (toy_world example_set).

(** * Properties *)

(** ** Device selection *)

Lemma is_cuda_cuda (s : string) : is_cuda ("cuda:" +:+ s) = true.
Proof. by destruct s. Qed.

(** C8: the device is chosen by the truthiness of [--cuda]: index 0 selects
    the CPU exactly as an absent flag does, and a CUDA device is selected
    exactly for a non-zero index. *)
Theorem select_device_truthiness :
  select_device (Some 0) = "cpu" /\
  select_device None = "cpu" /\
  (forall n : Z, n <> 0 -> select_device (Some n) = "cuda:" +:+ pretty n) /\
  (forall c : option Z,
      is_cuda (select_device c) = true <-> exists n : Z, c = Some n /\ n <> 0).
Proof.
  split; [reflexivity|]. split; [reflexivity|]. split.
  - intros n Hn. unfold select_device, truthy_int.
    destruct (Z.eqb_spec n 0); [contradiction|reflexivity].
  - intros [n|]; unfold select_device, truthy_int.
    + destruct (Z.eqb_spec n 0) as [->|Hn]; simpl.
      * split; [discriminate|]. intros (m & [= <-] & Hm). contradiction.
      * rewrite is_cuda_cuda. split; [|reflexivity]. intros _. by exists n.
    + simpl. split; [discriminate|]. intros (m & [=] & _).
Qed.

(** ** Drop-last batching *)

Section BatchingFacts.
Context {A : Type}.
Implicit Types l : list A.

Lemma chunks_fuel_full (bs fuel : nat) l :
  Forall (fun b => length b = bs) (chunks_fuel fuel bs l).
Proof.
  revert l. induction fuel as [|fuel IH]; intros l; simpl; [constructor|].
  destruct (Nat.ltb_spec (length l) bs); constructor; [|apply IH].
  rewrite length_take. lia.
Qed.

Lemma chunks_fuel_count (bs fuel : nat) l :
  (0 < bs)%nat -> (length l <= fuel)%nat ->
  length (chunks_fuel fuel bs l) = (length l / bs)%nat.
Proof.
  intros Hbs. revert l.
  induction fuel as [|fuel IH]; intros l Hl; simpl.
  - replace (length l) with 0%nat by lia. by rewrite Nat.Div0.div_0_l.
  - destruct (Nat.ltb_spec (length l) bs) as [Hlt|Hge]; simpl.
    + by rewrite Nat.div_small.
    + rewrite IH by (rewrite length_drop; lia).
      rewrite length_drop.
      replace (length l) with ((length l - bs) + 1 * bs)%nat at 2 by lia.
      rewrite Nat.div_add by lia. lia.
Qed.

Lemma chunks_fuel_concat (bs fuel : nat) l :
  (0 < bs)%nat -> (length l <= fuel)%nat ->
  concat (chunks_fuel fuel bs l) = take (bs * (length l / bs)) l.
Proof.
  intros Hbs. revert l.
  induction fuel as [|fuel IH]; intros l Hl; simpl.
  - destruct l; [|simpl in Hl; lia]. by rewrite take_nil.
  - destruct (Nat.ltb_spec (length l) bs) as [Hlt|Hge]; simpl.
    + rewrite Nat.div_small by done. by rewrite Nat.mul_0_r.
    + rewrite IH by (rewrite length_drop; lia).
      rewrite length_drop, take_take_drop. f_equal.
      replace (length l) with ((length l - bs) + 1 * bs)%nat at 2 by lia.
      rewrite Nat.div_add by lia. lia.
Qed.
End BatchingFacts.

(** ** Evaluation accounting *)

Lemma account_outcomes (pairs : list (Z * Z)) (acc : list Z * list Z) :
  foldl account acc pairs =
    (fst acc ++ true_outcomes pairs, snd acc ++ false_outcomes pairs).
Proof.
  revert acc. induction pairs as [|[o t] pairs IH]; intros [ta fa].
  - simpl. by rewrite !app_nil_r.
  - cbn [foldl]. rewrite IH. unfold true_outcomes, false_outcomes, account.
    rewrite !filter_cons. cbn [fst snd].
    destruct (Z.eqb_spec t 1) as [->|Ht1].
    { rewrite decide_True by done. rewrite decide_False by lia.
      cbn [fst snd map]. by rewrite <- app_assoc. }
    rewrite (decide_False (P := t = 1)) by done.
    destruct (Z.eqb_spec t 0) as [->|Ht0].
    + destruct (Z.eqb_spec o 1) as [->|Ho1].
      { rewrite decide_True by auto. cbn [fst snd map].
        by rewrite <- app_assoc. }
      destruct (Z.eqb_spec o 0) as [->|Ho0].
      { rewrite decide_True by auto. cbn [fst snd map].
        by rewrite <- app_assoc. }
      rewrite decide_False by lia. done.
    + rewrite decide_False by lia. done.
Qed.

Lemma account_skip (acc : list Z * list Z) (o t : Z) :
  (t <> 1 /\ t <> 0) \/ (t = 0 /\ o <> 1 /\ o <> 0) ->
  account acc (o, t) = acc.
Proof.
  destruct acc as [ta fa]. unfold account.
  intros [[Ht1 Ht0]|(-> & Ho1 & Ho0)].
  - destruct (Z.eqb_spec t 1); [done|]. by destruct (Z.eqb_spec t 0).
  - simpl. destruct (Z.eqb_spec o 1); [done|]. by destruct (Z.eqb_spec o 0).
Qed.

(** C1: the evaluation loop fills the accumulators by the asymmetric policy:
    a record labelled 1 appends its raw prediction to the true accumulator; a
    record labelled 0 appends 0 to the false accumulator when predicted 1 and
    1 when predicted 0.  Over a whole batch the accumulators grow by exactly
    the outcomes the specification describes, each batch of the loop is
    accounted from the arg-max of the network's output, and labels [1,1,0,0]
    with predictions [1,0,1,0] give [1,0], [0,1] and an overall accuracy of
    one half. *)
Theorem accounting_policy :
  (forall ta fa o, account (ta, fa) (o, 1) = (ta ++ [o], fa)) /\
  (forall ta fa, account (ta, fa) (1, 0) = (ta, fa ++ [0])) /\
  (forall ta fa, account (ta, fa) (0, 0) = (ta, fa ++ [1])) /\
  (forall acc output labels,
      account_batch acc output labels =
        (fst acc ++ true_outcomes (zip output labels),
         snd acc ++ false_outcomes (zip output labels))) /\
  (forall (T : Torch) h0 acc sequences tweets labels (w : World),
      fst (predict_batch h0 acc (sequences, tweets, labels) w) =
        match w_heap w !! h0 with
        | None => inl RuntimeError
        | Some h =>
            inr (account_batch acc
                   (softmax_argmax
                      (fst (forward (w_params w) sequences tweets h)))
                   labels)
        end) /\
  account_batch ([], []) [1; 0; 1; 0] [1; 1; 0; 0] = ([1; 0], [0; 1]) /\
  (let r := predict (T := toy) example_loader toy_config
              (toy_world example_set) in
   fst r = inr tt /\
   w_stdout (snd r) =
     [LAcc "True acc" 1 2 (1 # 2); LAcc "False acc" 1 2 (1 # 2);
      LAcc "Total acc" 2 4 (2 # 4)]) /\
  (2 # 4 == 1 # 2)%Q.
Proof.
  split_and!.
  - intros ta fa o. reflexivity.
  - reflexivity.
  - reflexivity.
  - intros acc output labels. apply account_outcomes.
  - intros T h0 acc sequences tweets labels w.
    unfold predict_batch, mbind, call_model, mret.
    destruct (w_heap w !! h0) as [h|]; [|reflexivity].
    destruct (forward (w_params w) sequences tweets h); reflexivity.
  - reflexivity.
  - vm_compute. split; reflexivity.
  - reflexivity.
Qed.

(** C9: a record whose true label is neither 1 nor 0, and a record labelled 0
    whose predicted class is neither 1 nor 0, leaves both accumulators as
    they were: the evaluation of a batch with such a record anywhere in it
    ends with the accumulators of the batch without it, so the record enters
    none of the three ratios computed from them. *)
Theorem unrecognised_records_excluded
    (acc : list Z * list Z) (o1 o2 l1 l2 : list Z) (o t : Z) :
  length o1 = length l1 ->
  (t <> 1 /\ t <> 0) \/ (t = 0 /\ o <> 1 /\ o <> 0) ->
  account acc (o, t) = acc /\
  account_batch acc (o1 ++ o :: o2) (l1 ++ t :: l2) =
    account_batch acc (o1 ++ o2) (l1 ++ l2).
Proof.
  intros Hlen Hskip. split; [by apply account_skip|].
  unfold account_batch.
  rewrite !zip_with_app by done. rewrite !foldl_app. cbn [zip_with foldl].
  by rewrite account_skip.
Qed.

Lemma unrecognised_records_excluded_witness :
  account ([], []) (1, 2) = ([], []) /\
  account_batch ([], []) ([1] ++ 1 :: [0]) ([1] ++ 2 :: [0]) =
    account_batch ([], []) ([1] ++ [0]) ([1] ++ [0]).
Proof.
  apply (unrecognised_records_excluded ([], []) [1] [0] [1] [0] 1 2).
  - reflexivity.
  - left. split; lia.
Defined.

(** ** Loops in the monad *)

Section FoldFacts.
Context {St A B : Type}.
Context (R : St -> St -> Prop) (P : St -> Prop).
Context (f : A -> B -> M St A).
Hypothesis R_refl : forall w, R w w.
Hypothesis R_trans : forall w1 w2 w3, R w1 w2 -> R w2 w3 -> R w1 w3.
Hypothesis P_stable : forall w w', P w -> R w w' -> P w'.
Hypothesis step :
  forall a b w, P w -> R w (snd (f a b w)) /\ exists a', fst (f a b w) = inr a'.

(** A loop whose body cannot fail from a state satisfying [P], and moves
    the state along [R], does not fail and moves the state along [R]. *)
Lemma foldM_rel (l : list B) (a : A) (w : St) :
  P w -> R w (snd (foldM f a l w)) /\ exists a', fst (foldM f a l w) = inr a'.
Proof.
  revert a w. induction l as [|b l IH]; intros a w HP; simpl.
  - split; [apply R_refl|by exists a].
  - unfold mbind. destruct (step a b w HP) as [HR [a' Ha']].
    destruct (f a b w) as [[e|a''] w1]; simpl in *; [discriminate|].
    destruct (IH a'' w1) as [HR' Hok']; [by eapply P_stable|].
    split; [by eapply R_trans|done].
Qed.
End FoldFacts.

Section DriverFacts.
Context `{T : Torch}.

(** *** Drop-last batching *)

Lemma DataLoader_new_inr (dataset : list Item) (batch_size : Z)
    (dl : DataLoader) :
  DataLoader_new dataset batch_size = inr dl ->
  0 < batch_size /\ dl_dataset dl = dataset /\
  Z.of_nat (dl_batch_size dl) = batch_size.
Proof.
  unfold DataLoader_new. destruct (Z.leb_spec batch_size 0); [done|].
  intros [= <-]. simpl. split; [done|]. split; [done|]. lia.
Qed.

(** C7: the loader built by [load_model] drops the last partial batch:
    every batch of a pass has exactly [batch_size] records, a pass has
    [len(dataset) // batch_size] batches, together they are the first
    records of the shuffled dataset (the trailing ones are in no batch),
    the loops iterate over exactly these batches, and 35 records with a
    batch size of 32 give one batch. *)
Theorem drop_last_batches (dataset : list Item) (batch_size : Z)
    (dl : DataLoader) (k : nat) :
  DataLoader_new dataset batch_size = inr dl ->
  Forall (fun b => Z.of_nat (length b) = batch_size) (sample_batches dl k) /\
  Z.of_nat (length (sample_batches dl k)) =
    Z.of_nat (length dataset) / batch_size /\
  concat (sample_batches dl k) =
    take (dl_batch_size dl * (length dataset / dl_batch_size dl))
      (shuffle k dataset) /\
  (forall w : World,
      w_rng w = k ->
      fst (dl_iter dl w) = inr (map collate_fn (sample_batches dl k))) /\
  (length dataset = 35%nat -> batch_size = 32 ->
   length (sample_batches dl k) = 1%nat).
Proof.
  intros Hdl. apply DataLoader_new_inr in Hdl as (Hpos & Hds & Hbs).
  assert (Hlen : length (shuffle k dataset) = length dataset)
    by apply Permutation_length, shuffle_perm.
  assert (Hcount : length (sample_batches dl k) =
                   (length dataset / dl_batch_size dl)%nat).
  { unfold sample_batches, drop_last_chunks. rewrite Hds.
    rewrite chunks_fuel_count by lia. by rewrite Hlen. }
  split_and!.
  - unfold sample_batches, drop_last_chunks.
    eapply Forall_impl; [apply chunks_fuel_full|].
    intros b Hb. simpl in Hb. lia.
  - rewrite Hcount, <- Hbs. by rewrite Nat2Z.inj_div.
  - unfold sample_batches, drop_last_chunks. rewrite Hds.
    rewrite chunks_fuel_concat by lia. by rewrite Hlen.
  - intros w <-. reflexivity.
  - intros H35 H32. rewrite Hcount, H35.
    replace (dl_batch_size dl) with 32%nat by lia. reflexivity.
Qed.
End DriverFacts.

Lemma drop_last_batches_witness :
  Forall (fun b => Z.of_nat (length b) = 32) (sample_batches loader35 0) /\
  Z.of_nat (length (sample_batches loader35 0)) =
    Z.of_nat (length records35) / 32 /\
  concat (sample_batches loader35 0) =
    take (dl_batch_size loader35 *
          (length records35 / dl_batch_size loader35))
      (shuffle 0 records35) /\
  (forall w : World,
      w_rng w = 0%nat ->
      fst (dl_iter loader35 w) =
        inr (map collate_fn (sample_batches loader35 0))) /\
  (length records35 = 35%nat -> 32 = 32 ->
   length (sample_batches loader35 0) = 1%nat).
Proof.
  exact (drop_last_batches (T := toy) records35 32 loader35 0%nat eq_refl).
Defined.

(** ** Checkpoint file names *)

Lemma string_length_append (s t : string) :
  String.length (s +:+ t) = (String.length s + String.length t)%nat.
Proof. induction s as [|c s IH]; simpl; [done|]. by rewrite IH. Qed.

Lemma string_append_inv_r (s1 s2 t : string) :
  s1 +:+ t = s2 +:+ t -> s1 = s2.
Proof.
  revert s2. induction s1 as [|c s1 IH]; intros [|c' s2] Heq; simpl in Heq.
  - done.
  - apply (f_equal String.length) in Heq.
    rewrite !string_length_append in Heq. simpl in Heq. lia.
  - apply (f_equal String.length) in Heq.
    rewrite !string_length_append in Heq. simpl in Heq. lia.
  - injection Heq as -> Heq. f_equal. by apply IH.
Qed.

Lemma pretty_digits_no_sep (x : N) (s : string) :
  starts_with_sep s = false -> starts_with_sep (pretty_N_go x s) = false.
Proof.
  revert s. induction (N.lt_wf_0 x) as [x _ IH]. intros s Hs.
  destruct (decide (x = 0)%N) as [->|Hx].
  - by rewrite pretty_N_go_0.
  - rewrite pretty_N_go_step by lia. apply IH.
    + apply N.div_lt; lia.
    + simpl. unfold pretty_N_char. by repeat case_match.
Qed.

Lemma ckpt_name_no_sep (n : Z) : starts_with_sep (ckpt_name n) = false.
Proof.
  unfold ckpt_name.
  assert (Hn : starts_with_sep (pretty n) = false).
  { destruct n as [|p|p]; [done| |done].
    unfold pretty, pretty_Z, pretty, pretty_positive, pretty, pretty_N.
    rewrite decide_False by done. by apply pretty_digits_no_sep. }
  destruct (pretty n); [done|]. simpl in *. done.
Qed.

Lemma ckpt_name_inj (n m : Z) : ckpt_name n = ckpt_name m -> n = m.
Proof.
  unfold ckpt_name. intros Heq%string_append_inv_r.
  by apply (inj pretty) in Heq.
Qed.

Lemma path_join_relative_inj (a b1 b2 : string) :
  starts_with_sep b1 = false -> starts_with_sep b2 = false ->
  path_join a b1 = path_join a b2 -> b1 = b2.
Proof.
  unfold path_join. intros -> ->.
  destruct ((String.length a =? 0)%nat || ends_with_sep a); intros Heq.
  - by apply (inj (String.append a)) in Heq.
  - apply (inj (String.append a)) in Heq.
    by apply (inj (String.append "/")) in Heq.
Qed.

Lemma ckpt_path_inj (dir : string) (n m : Z) :
  path_join dir (ckpt_name n) = path_join dir (ckpt_name m) -> n = m.
Proof.
  intros Heq. apply ckpt_name_inj.
  eapply path_join_relative_inj; eauto using ckpt_name_no_sep.
Qed.

Lemma elem_of_py_range (n e : Z) : e ∈ py_range n <-> 0 <= e < n.
Proof.
  unfold py_range. rewrite list_elem_of_fmap. split.
  - intros (k & -> & Hk%elem_of_seq). lia.
  - intros He. exists (Z.to_nat e). split; [|apply elem_of_seq]; lia.
Qed.

Lemma NoDup_py_range (n : Z) : NoDup (py_range n).
Proof.
  unfold py_range. apply NoDup_fmap_2; [|apply NoDup_seq].
  intros x y. lia.
Qed.

(** ** The training loop *)

Section TrainingFacts.
Context `{T : Torch}.

Lemma epoch_rel_refl (h0 : nat) (w : World) : epoch_rel h0 w w.
Proof.
  repeat split. exists []. by rewrite app_nil_r.
Qed.

Lemma epoch_rel_trans (h0 : nat) (w1 w2 w3 : World) :
  epoch_rel h0 w1 w2 -> epoch_rel h0 w2 w3 -> epoch_rel h0 w1 w3.
Proof.
  intros (Hh & He & Hg & evs & Hl & Hz) (Hh' & He' & Hg' & evs' & Hl' & Hz').
  split_and!; [congruence..|].
  exists (evs ++ evs'). split; [|by apply Forall_app].
  by rewrite Hl', Hl, app_assoc.
Qed.

Lemma batch_rel_refl (h0 : nat) (w : World) : batch_rel h0 w w.
Proof. split; [apply epoch_rel_refl|done]. Qed.

Lemma batch_rel_trans (h0 : nat) (w1 w2 w3 : World) :
  batch_rel h0 w1 w2 -> batch_rel h0 w2 w3 -> batch_rel h0 w1 w3.
Proof.
  intros (He & Hf & Hd) (He' & Hf' & Hd').
  split; [by eapply epoch_rel_trans|]. split; congruence.
Qed.

Lemma h0_allocated_epoch (h0 : nat) (w w' : World) :
  h0_allocated h0 w -> epoch_rel h0 w w' -> h0_allocated h0 w'.
Proof. unfold h0_allocated. intros ? (-> & _). done. Qed.

Lemma h0_allocated_batch (h0 : nat) (w w' : World) :
  h0_allocated h0 w -> batch_rel h0 w w' -> h0_allocated h0 w'.
Proof. intros ? [? _]. by eapply h0_allocated_epoch. Qed.

Lemma Forall_zeroed (h : list scalar) :
  Forall (fun x => x = szero) (map (fun _ => szero) h).
Proof. induction h; simpl; by constructor. Qed.

(** One batch of the training loop, step by step. *)
Lemma train_batch_spec (h0 : nat) (opt : OptState)
    (sb : nat * (Seqs * Tweets * list Z)) (w : World) (h : list scalar) :
  w_heap w !! h0 = Some h ->
  exists o w',
    train_batch h0 opt sb w = (inr o, w') /\
    w_log w' =
      w_log w ++ [EvForward (w_grad_enabled w) h0 (map (fun _ => szero) h);
                  EvBackward; EvOptimStep] /\
    length (w_heap w') = length (w_heap w) /\
    w_files w' = w_files w /\ w_dirs w' = w_dirs w /\
    w_env w' = w_env w /\ w_grad_enabled w' = w_grad_enabled w /\
    w_rng w' = w_rng w.
Proof.
  intros Hh. destruct sb as [step [[s t] l]].
  unfold train_batch, mbind, modify, zero_, call_model, emit, print, mret.
  cbn. rewrite list_lookup_alter, Hh. cbn. rewrite decide_True by done.
  destruct (forward _ _ _ _) as [out h'] eqn:Hf. cbn.
  destruct (clip_grad_norm _ _) as [g n] eqn:Hc. cbn.
  destruct (adam_step _ _ _) as [o p] eqn:Ha. cbn.
  destruct (_ =? _)%nat; cbn; eexists _, _; (split; [reflexivity|]); cbn;
    rewrite <- !app_assoc, length_insert, length_alter; done.
Qed.

Lemma train_batch_rel (h0 : nat) (opt : OptState)
    (sb : nat * (Seqs * Tweets * list Z)) (w : World) :
  h0_allocated h0 w ->
  batch_rel h0 w (snd (train_batch h0 opt sb w)) /\
  exists o, fst (train_batch h0 opt sb w) = inr o.
Proof.
  intros Hh. apply lookup_lt_is_Some_2 in Hh as [h Hh].
  destruct (train_batch_spec h0 opt sb w h Hh)
    as (o & w' & -> & Hl & Hlen & Hf & Hd & He & Hg & _).
  simpl. split; [|by exists o].
  split; [|done]. split_and!; try done.
  eexists. split; [exact Hl|].
  repeat constructor. apply Forall_zeroed.
Qed.

Lemma train_batches_rel (h0 : nat) (opt : OptState)
    (l : list (nat * (Seqs * Tweets * list Z))) (w : World) :
  h0_allocated h0 w ->
  batch_rel h0 w (snd (foldM (train_batch h0) opt l w)) /\
  exists o, fst (foldM (train_batch h0) opt l w) = inr o.
Proof.
  apply (foldM_rel (batch_rel h0) (h0_allocated h0)).
  - apply batch_rel_refl.
  - apply batch_rel_trans.
  - apply h0_allocated_batch.
  - apply train_batch_rel.
Qed.

(** The checkpoint step at the end of an epoch. *)
Lemma save_checkpoint_spec (args : Args) (epoch : Z) (opt : OptState)
    (w : World) :
  exists w',
    save_checkpoint args epoch opt w = (inr tt, w') /\
    w_heap w' = w_heap w /\ w_log w' = w_log w /\ w_env w' = w_env w /\
    w_grad_enabled w' = w_grad_enabled w /\ w_params w' = w_params w /\
    match a_logdir args with
    | Some logdir =>
        let path := path_join (e_script_dir (w_env w)) logdir in
        w_files w' =
          <[path_join path (ckpt_name (epoch + 1)) :=
              {| ck_epoch := epoch; ck_state_dict := w_params w;
                 ck_optimizer := opt |}]> (w_files w) /\
        w_dirs w' =
          (if bool_decide (path ∈ w_dirs w)
              || bool_decide (is_Some (w_files w !! path))
           then w_dirs w
           else {[ path ]} ∪ list_to_set (parents path) ∪ w_dirs w)
    | None => w_files w' = w_files w /\ w_dirs w' = w_dirs w
    end.
Proof.
  unfold save_checkpoint. destruct (a_logdir args) as [logdir|].
  - unfold mbind, gets, os_path_exists, os_makedirs, torch_save, print,
      modify, mret. cbn.
    destruct (bool_decide _ || bool_decide _); cbn;
      eexists; (split; [reflexivity|]); cbn; done.
  - eexists. split; [reflexivity|]. done.
Qed.
Lemma train_epoch_spec (args : Args) (dl : DataLoader) (h0 : nat)
    (opt : OptState) (epoch : Z) (w : World) :
  h0_allocated h0 w ->
  exists opt' w',
    train_epoch args dl h0 opt epoch w = (inr opt', w') /\
    epoch_rel h0 w w' /\
    match a_logdir args with
    | Some logdir =>
        let path := path_join (e_script_dir (w_env w)) logdir in
        w_files w' =
          <[path_join path (ckpt_name (epoch + 1)) :=
              {| ck_epoch := epoch; ck_state_dict := w_params w';
                 ck_optimizer := opt' |}]> (w_files w) /\
        w_dirs w' =
          (if bool_decide (path ∈ w_dirs w)
              || bool_decide (is_Some (w_files w !! path))
           then w_dirs w
           else {[ path ]} ∪ list_to_set (parents path) ∪ w_dirs w)
    | None => w_files w' = w_files w /\ w_dirs w' = w_dirs w
    end.
Proof.
  intros Hh. unfold train_epoch, mbind, dl_iter.
  set (w0 := set_rng (S (w_rng w)) w).
  set (batches := enumerate (map collate_fn (sample_batches dl (w_rng w)))).
  destruct (train_batches_rel h0 opt batches w0 Hh)
    as [((Hlen & Henv & Hg & evs & Hlog & Hz) & Hf & Hd) [o Ho]].
  destruct (foldM (train_batch h0) opt batches w0) as [[e|o'] w1];
    simpl in Ho; [discriminate|]. injection Ho as ->.
  destruct (save_checkpoint_spec args epoch o w1)
    as (w' & -> & Hh' & Hl' & He' & Hg' & Hp' & Hfs).
  simpl in *. exists o, w'. split; [reflexivity|]. split.
  - split_and!; [congruence..|]. exists evs. split; [congruence|done].
  - destruct (a_logdir args) as [logdir|].
    + rewrite Henv, Hf, Hd in Hfs. rewrite Hp'. exact Hfs.
    + destruct Hfs. split; congruence.
Qed.

Lemma train_epoch_rel (args : Args) (dl : DataLoader) (h0 : nat)
    (opt : OptState) (epoch : Z) (w : World) :
  h0_allocated h0 w ->
  epoch_rel h0 w (snd (train_epoch args dl h0 opt epoch w)) /\
  exists o, fst (train_epoch args dl h0 opt epoch w) = inr o.
Proof.
  intros Hh.
  destruct (train_epoch_spec args dl h0 opt epoch w Hh)
    as (o & w' & -> & Hrel & _).
  split; [done|by exists o].
Qed.

Lemma train_epochs_rel (args : Args) (dl : DataLoader) (h0 : nat)
    (opt : OptState) (l : list Z) (w : World) :
  h0_allocated h0 w ->
  epoch_rel h0 w (snd (foldM (train_epoch args dl h0) opt l w)) /\
  exists o, fst (foldM (train_epoch args dl h0) opt l w) = inr o.
Proof.
  apply (foldM_rel (epoch_rel h0) (h0_allocated h0)).
  - apply epoch_rel_refl.
  - apply epoch_rel_trans.
  - apply h0_allocated_epoch.
  - apply train_epoch_rel.
Qed.

Lemma path_join_entry (a b : string) :
  starts_with_sep b = false -> entry_of a b (path_join a b).
Proof.
  unfold path_join, entry_of. intros ->.
  destruct a as [|c a]; [right; split; [by left|done]|].
  cbn [String.length Nat.eqb orb].
  destruct (ends_with_sep (String c a)) eqn:Hend.
  - right. split; [by right|done].
  - by left.
Qed.

Lemma path_join_resolved (script_dir logdir : string) :
  resolved_logdir script_dir logdir (path_join script_dir logdir).
Proof.
  unfold resolved_logdir.
  destruct (starts_with_sep logdir) eqn:Habs.
  - left. split; [done|]. unfold path_join. by rewrite Habs.
  - right. split; [done|]. by apply path_join_entry.
Qed.

(** C5: an epoch of the training loop, run with its hidden-state buffer in
    place and with no checkpoint file standing where the log directory or
    one of its parents must be, completes.  With a log directory it writes
    exactly one file: the entry named by the decimal of epoch+1 followed by
    ".ckpt" of the log directory (the directory given when absolute, else
    that entry of the script's directory), holding the epoch index, the
    model state and the optimiser state as they are at the end of the
    epoch; the directory exists afterwards, untouched when it was there and
    created with its parents when absent.  Without a log directory no file
    and no directory changes. *)
Theorem checkpoint_every_epoch (args : Args) (dl : DataLoader) (h0 : nat)
    (opt : OptState) (epoch : Z) (w : World) :
  h0_allocated h0 w ->
  (forall logdir dir p,
      a_logdir args = Some logdir ->
      resolved_logdir (e_script_dir (w_env w)) logdir dir ->
      p ∈ dir :: parents dir -> w_files w !! p = None) ->
  exists opt' w',
    train_epoch args dl h0 opt epoch w = (inr opt', w') /\
    match a_logdir args with
    | Some logdir =>
        exists dir file,
          resolved_logdir (e_script_dir (w_env w)) logdir dir /\
          entry_of dir (pretty (epoch + 1) +:+ ".ckpt") file /\
          w_files w' =
            <[file := {| ck_epoch := epoch; ck_state_dict := w_params w';
                         ck_optimizer := opt' |}]> (w_files w) /\
          dir ∈ w_dirs w' /\
          w_dirs w ⊆ w_dirs w' /\
          (dir ∈ w_dirs w -> w_dirs w' = w_dirs w) /\
          (forall d, d ∈ w_dirs w' ->
                     d ∈ w_dirs w \/ d = dir \/ d ∈ parents dir)
    | None => w_files w' = w_files w /\ w_dirs w' = w_dirs w
    end.
Proof.
  intros Hh Hfree.
  destruct (train_epoch_spec args dl h0 opt epoch w Hh)
    as (o & w' & Hrun & _ & Hfs).
  exists o, w'. split; [exact Hrun|].
  destruct (a_logdir args) as [logdir|]; [|exact Hfs].
  destruct Hfs as [Hfiles Hdirs].
  set (dir := path_join (e_script_dir (w_env w)) logdir) in *.
  assert (Hres : resolved_logdir (e_script_dir (w_env w)) logdir dir)
    by apply path_join_resolved.
  exists dir, (path_join dir (ckpt_name (epoch + 1))).
  split; [exact Hres|]. split.
  { apply (path_join_entry dir (ckpt_name (epoch + 1))), ckpt_name_no_sep. }
  split; [exact Hfiles|].
  rewrite Hdirs. clear Hdirs Hfiles.
  destruct (bool_decide_reflect (dir ∈ w_dirs w)) as [Hin|Hnin]; simpl.
  { split_and!; [done|done|done|]. intros d Hd. by left. }
  destruct (bool_decide_reflect (is_Some (w_files w !! dir)))
    as [Hsome|Hnone]; simpl.
  { exfalso. rewrite (Hfree logdir dir dir eq_refl Hres) in Hsome.
    - by destruct Hsome.
    - by left. }
  split_and!; [set_solver|set_solver|done|].
  intros d Hd. rewrite !elem_of_union, elem_of_singleton in Hd.
  rewrite elem_of_list_to_set in Hd. tauto.
Qed.
(** C4: [train] allocates the hidden-state buffer once, at the next free
    address of the arena, and never again; every forward call of the run is
    given that buffer and finds only zeros in it, whatever the previous
    batch left there; and each batch zeroes the buffer in place, keeping
    its address and its shape, right before its forward call. *)
Theorem hidden_state_zero_every_batch (args : Args) (dl : DataLoader)
    (config : ModelConfig) (w : World) :
  let h0 := length (w_heap w) in
  let r := train args dl config w in
  (exists evs, w_log (snd r) = w_log w ++ evs /\
               Forall (sees_zero h0) evs) /\
  (length (w_heap (snd r)) <= S (length (w_heap w)))%nat /\
  (0 <= rnn_layers config -> 0 <= hidden_size config ->
   fst r = inr tt /\ length (w_heap (snd r)) = S (length (w_heap w))) /\
  (forall opt sb (w1 : World) h,
      w_heap w1 !! h0 = Some h ->
      let w2 := snd (train_batch h0 opt sb w1) in
      w_log w2 =
        w_log w1 ++ [EvForward (w_grad_enabled w1) h0
                       (map (fun _ => szero) h);
                     EvBackward; EvOptimStep] /\
      length (w_heap w2) = length (w_heap w1)).
Proof.
  intros h0 r. subst r.
  assert (Hstep : forall opt sb (w1 : World) h,
             w_heap w1 !! h0 = Some h ->
             let w2 := snd (train_batch h0 opt sb w1) in
             w_log w2 =
               w_log w1 ++ [EvForward (w_grad_enabled w1) h0
                              (map (fun _ => szero) h);
                            EvBackward; EvOptimStep] /\
             length (w_heap w2) = length (w_heap w1)).
  { intros opt sb w1 h Hh.
    destruct (train_batch_spec h0 opt sb w1 h Hh)
      as (o & w' & -> & Hl & Hlen & _). simpl. done. }
  unfold train, mbind, gets, torch_zeros.
  destruct (forallb _ _) eqn:Hdims.
  - set (w1 := set_heap _ w).
    set (opt := adam_init _ _).
    assert (Hh : h0_allocated h0 w1).
    { unfold h0_allocated, w1, h0. simpl. rewrite length_app. simpl. lia. }
    destruct (train_epochs_rel args dl h0 opt (py_range (a_epoch args)) w1 Hh)
      as [(Hlen & _ & _ & evs & Hlog & Hz) [o Ho]].
    fold h0.
    destruct (foldM _ opt _ w1) as [[e|o'] w2]; simpl in Ho; [discriminate|].
    simpl in *. rewrite length_app in Hlen. simpl in Hlen.
    split_and!; [by exists evs|lia| |exact Hstep].
    intros _ _. split; [done|lia].
  - simpl. split_and!; [|lia| |exact Hstep].
    + exists []. by rewrite app_nil_r.
    + intros Hr Hs. exfalso. simpl in Hdims.
      rewrite !andb_false_iff in Hdims.
      rewrite !Z.leb_gt in Hdims. lia.
Qed.

Lemma train_epochs_files (args : Args) (dl : DataLoader) (h0 : nat)
    (logdir dir : string) (l : list Z) :
  a_logdir args = Some logdir ->
  NoDup l ->
  forall (opt : OptState) (w : World),
    h0_allocated h0 w ->
    dir = path_join (e_script_dir (w_env w)) logdir ->
    exists o w',
      foldM (train_epoch args dl h0) opt l w = (inr o, w') /\
      epoch_rel h0 w w' /\
      (forall e, e ∈ l ->
         exists ck, w_files w' !! path_join dir (ckpt_name (e + 1)) = Some ck
                    /\ ck_epoch ck = e) /\
      (forall f, (forall e, e ∈ l -> f <> path_join dir (ckpt_name (e + 1))) ->
         w_files w' !! f = w_files w !! f).
Proof.
  intros Hlog. induction l as [|e l IH]; intros Hnd opt w Hh Hdir.
  - exists opt, w. split; [reflexivity|]. split; [apply epoch_rel_refl|].
    split; [|done]. intros e He. by apply elem_of_nil in He.
  - apply NoDup_cons in Hnd as [Hnotin Hnd].
    destruct (train_epoch_spec args dl h0 opt e w Hh)
      as (o1 & w1 & Hrun & Hrel & Hfs).
    rewrite Hlog in Hfs. cbv zeta in Hfs. rewrite <- Hdir in Hfs.
    destruct Hfs as [Hfiles _].
    destruct (IH Hnd o1 w1) as (o & w' & Hrun' & Hrel' & Hsaved & Hother).
    { by eapply h0_allocated_epoch. }
    { destruct Hrel as (_ & -> & _). done. }
    exists o, w'. split.
    { simpl. unfold mbind. by rewrite Hrun. }
    split; [by eapply epoch_rel_trans|]. split.
    + intros e' [->|He']%elem_of_cons; [|by apply Hsaved].
      rewrite Hother.
      * rewrite Hfiles, lookup_insert_eq. by eexists.
      * intros e'' He'' Heq%ckpt_path_inj.
        assert (e = e'') as -> by lia. done.
    + intros f Hf. rewrite Hother.
      * rewrite Hfiles, lookup_insert_ne; [done|].
        intros Heq. eapply Hf; [|by symmetry]. by left.
      * intros e' He'. apply Hf. by right.
Qed.

End TrainingFacts.

(** ** The evaluation loop and the entry point *)

Section EvaluationFacts.
Context `{T : Torch}.

Lemma eval_rel_refl (w : World) : eval_rel w w.
Proof. repeat split. exists []. by rewrite app_nil_r. Qed.

Lemma eval_rel_trans (w1 w2 w3 : World) :
  eval_rel w1 w2 -> eval_rel w2 w3 -> eval_rel w1 w3.
Proof.
  intros (Hp & Hg & Hm & Hh & Ho & evs & Hl & Hf)
         (Hp' & Hg' & Hm' & Hh' & Ho' & evs' & Hl' & Hf').
  split_and!; [congruence..|].
  exists (evs ++ evs'). split; [by rewrite Hl', Hl, app_assoc|].
  apply Forall_app. split; [done|]. by rewrite <- Hm.
Qed.

Lemma predict_batch_rel (h0 : nat) (acc : list Z * list Z)
    (batch : Seqs * Tweets * list Z) (w : World) :
  h0_allocated h0 w ->
  eval_rel w (snd (predict_batch h0 acc batch w)) /\
  exists acc', fst (predict_batch h0 acc batch w) = inr acc'.
Proof.
  intros Hh. apply lookup_lt_is_Some_2 in Hh as [h Hh].
  destruct batch as [[s t] l].
  unfold predict_batch, mbind, call_model, mret. rewrite Hh.
  destruct (forward _ _ _ _) as [out h'] eqn:Hf. cbn.
  split; [|by eexists]. split_and!; try done.
  - simpl. by rewrite length_insert.
  - simpl. eexists. split; [reflexivity|]. by repeat constructor.
Qed.

Lemma predict_batches_rel (h0 : nat) (acc : list Z * list Z)
    (l : list (Seqs * Tweets * list Z)) (w : World) :
  h0_allocated h0 w ->
  eval_rel w (snd (foldM (predict_batch h0) acc l w)) /\
  exists acc', fst (foldM (predict_batch h0) acc l w) = inr acc'.
Proof.
  apply (foldM_rel eval_rel (h0_allocated h0)).
  - apply eval_rel_refl.
  - apply eval_rel_trans.
  - unfold h0_allocated. intros w1 w2 ? (_ & _ & _ & -> & _). done.
  - apply predict_batch_rel.
Qed.

Lemma predict_loop_frame (dl : DataLoader) (config : ModelConfig)
    (w : World) :
  eval_frame w (snd (predict_loop dl config w)).
Proof.
  unfold predict_loop, mbind, torch_zeros, dl_iter.
  destruct (forallb _ _).
  - set (w1 := set_rng _ _). set (h0 := length (w_heap w)).
    assert (Hh : h0_allocated h0 w1).
    { unfold h0_allocated, w1, h0. simpl. rewrite length_app. simpl. lia. }
    destruct (predict_batches_rel h0 ([], [])
                (map collate_fn (sample_batches dl (w_rng w))) w1 Hh)
      as [(Hp & Hg & Hm & _ & Ho & evs & Hl & Hf) _].
    simpl in *. unfold eval_frame. split_and!; try done. by exists evs.
  - simpl. unfold eval_frame. split_and!; try done.
    exists []. by rewrite app_nil_r.
Qed.

(** One of the final prints, in closed form. *)
Lemma print_acc_eq (label : string) (acc : list Z) (w : World) :
  print_acc label acc w =
    match acc with
    | [] => (inl ZeroDivisionError, w)
    | _ :: _ =>
        (inr tt,
         set_stdout
           (w_stdout w ++
              [LAcc label (py_sum acc) (py_len acc)
                 (py_sum acc # Z.to_pos (py_len acc))]) w)
    end.
Proof.
  unfold print_acc, mbind, lift, truediv, print, modify.
  destruct acc as [|x acc]; [reflexivity|].
  assert (Hpos : 0 < py_len (x :: acc)) by (unfold py_len; simpl; lia).
  destruct (Z.eqb_spec (py_len (x :: acc)) 0) as [Hz|_]; [lia|].
  rewrite Z.sgn_pos, Z.abs_eq, Z.mul_1_l by lia. reflexivity.
Qed.
Lemma print_acc_frame (label : string) (acc : list Z) (w : World) :
  let w' := snd (print_acc label acc w) in
  w_params w' = w_params w /\ w_grads w' = w_grads w /\
  w_grad_enabled w' = w_grad_enabled w /\ w_log w' = w_log w /\
  w_stderr w' = w_stderr w.
Proof. rewrite print_acc_eq. by destruct acc. Qed.

(** C6, as the code has it: the evaluation pass makes forward calls only,
    never a backward call nor an optimiser step, and leaves every model
    parameter and every accumulated gradient as it found them; it does not
    switch gradient tracking off: each forward call runs under the
    autograd mode in force when [predict] is entered, and that mode is
    left as it was. *)
Theorem predict_keeps_model (dl : DataLoader) (config : ModelConfig)
    (w : World) :
  let w' := snd (predict dl config w) in
  w_params w' = w_params w /\
  w_grads w' = w_grads w /\
  w_grad_enabled w' = w_grad_enabled w /\
  exists evs, w_log w' = w_log w ++ evs /\
              Forall (forward_under (w_grad_enabled w)) evs.
Proof.
  unfold predict, mbind.
  pose proof (predict_loop_frame dl config w) as Hloop.
  destruct (predict_loop dl config w) as [[e|[ta fa]] w1]; simpl in Hloop.
  { destruct Hloop as (Hp & Hg & Hm & _ & Hl). simpl. done. }
  destruct Hloop as (Hp & Hg & Hm & _ & evs & Hl & Hf).
  pose proof (print_acc_frame "True acc" ta w1) as (Hp1 & Hg1 & Hm1 & Hl1 & _).
  destruct (print_acc "True acc" ta w1) as [[e|[]] w2]; simpl in *.
  { split_and!; [congruence..|]. exists evs. split; [congruence|done]. }
  pose proof (print_acc_frame "False acc" fa w2)
    as (Hp2 & Hg2 & Hm2 & Hl2 & _).
  destruct (print_acc "False acc" fa w2) as [[e|[]] w3]; simpl in *.
  { split_and!; [congruence..|]. exists evs. split; [congruence|done]. }
  pose proof (print_acc_frame "Total acc" (ta ++ fa) w3)
    as (Hp3 & Hg3 & Hm3 & Hl3 & _).
  split_and!; [congruence..|]. exists evs. split; [congruence|done].
Qed.

(** In evaluation mode [load_model] joins the log directory with the
    checkpoint name before anything examines the directory: it returns
    only when a log directory was given. *)
Lemma load_model_returns_logdir (args : Args) (config : ModelConfig)
    (w w' : World) (loaded : list Item * DataLoader * string) :
  truthy_str (a_test args) = true ->
  load_model args config w = (inr loaded, w') ->
  exists logdir, a_logdir args = Some logdir.
Proof.
  intros Htest Hrun. destruct (a_logdir args) as [logdir|] eqn:Hlog; [eauto|].
  exfalso. revert Hrun.
  unfold load_model, mbind, emit, external, modify, lift, os_path_join.
  rewrite Htest, Hlog. cbn.
  destruct (e_topic_feature (w_env w)); cbn; [|discriminate].
  destruct (e_input (w_env w)); cbn; discriminate.
Qed.

(** C2, as the code has it: when the evaluation loop of an evaluation run
    ends with an empty true accumulator or an empty false accumulator, the
    final ratio computation raises [ZeroDivisionError] and nothing catches
    it.  [predict] ends with that exception, having written nothing to
    standard error since the loop; with an empty true accumulator nothing
    at all is printed, with only the false accumulator empty the
    true-accuracy line is.  The entry point ends exactly as [predict]
    does, and the interpreter exits with status 1 after writing the
    traceback to standard error, standard output being left as [predict]
    left it. *)
Theorem missing_class_raises (args : Args) (config : ModelConfig)
    (w0 w w1 : World) (dataset : list Item) (dl : DataLoader)
    (device : string) (true_acc false_acc : list Z) :
  truthy_str (a_test args) = true ->
  e_config (w_env w0) = Some config ->
  load_model args config (snd (emit EvLoadConfig w0)) =
    (inr (dataset, dl, device), w) ->
  predict_loop dl config w = (inr (true_acc, false_acc), w1) ->
  true_acc = [] \/ false_acc = [] ->
  let r := predict dl config w in
  fst r = inl ZeroDivisionError /\
  w_stderr (snd r) = w_stderr w1 /\
  (true_acc = [] -> snd r = w1) /\
  (true_acc <> [] ->
   w_stdout (snd r) =
     w_stdout w1 ++
       [LAcc "True acc" (py_sum true_acc) (py_len true_acc)
          (py_sum true_acc # Z.to_pos (py_len true_acc))]) /\
  main args w0 = r /\
  fst (run_main args w0) = 1 /\
  w_stderr (snd (run_main args w0)) =
    w_stderr w1 ++ [LTraceback ZeroDivisionError] /\
  w_stdout (snd (run_main args w0)) = w_stdout (snd r).
Proof.
  intros Htest Hconfig Hload Hloop Hempty r.
  destruct (load_model_returns_logdir _ _ _ _ _ Htest Hload)
    as [logdir Hlog].
  assert (Hmain : main args w0 = r).
  { subst r. revert Hload.
    unfold main, mbind, emit, external, modify, require_logdir.
    cbn -[load_model predict]. rewrite Hconfig. intros ->.
    by rewrite Htest, Hlog. }
  assert (Hr : fst r = inl ZeroDivisionError /\
               w_stderr (snd r) = w_stderr w1 /\
               (true_acc = [] -> snd r = w1) /\
               (true_acc <> [] ->
                w_stdout (snd r) =
                  w_stdout w1 ++
                    [LAcc "True acc" (py_sum true_acc) (py_len true_acc)
                       (py_sum true_acc # Z.to_pos (py_len true_acc))])).
  { subst r. unfold predict, mbind. rewrite Hloop. rewrite !print_acc_eq.
    destruct true_acc as [|x ta].
    - simpl. split_and!; try done.
    - destruct Hempty as [?| ->]; [done|]. simpl.
      split_and!; try done. }
  destruct Hr as (Hexn & Herr & Hnone & Hline).
  split_and!; try done.
  - unfold run_main. rewrite Hmain.
    destruct r as [[e|[]] w2]; simpl in *; [|discriminate].
    by injection Hexn as ->.
  - unfold run_main. rewrite Hmain.
    destruct r as [[e|[]] w2]; simpl in *; [|discriminate].
    injection Hexn as ->. simpl. by rewrite Herr.
  - unfold run_main. rewrite Hmain.
    destruct r as [[e|[]] w2]; simpl in *; [|discriminate].
    by injection Hexn as ->.
Qed.

(** C3, as the code has it: in evaluation mode with no log directory the
    process ends with a non-zero exit status without starting a pass over
    the data and without allocating the hidden-state buffer, so neither
    loop runs; the mode is examined only after the configuration, the
    topic feature and the input data have been read and the model built;
    and whatever reaches standard error is the interpreter's traceback,
    not the usage message. *)
Theorem evaluation_needs_logdir (args : Args) (w : World) :
  truthy_str (a_test args) = true ->
  a_logdir args = None ->
  let r := run_main args w in
  fst r <> 0 /\
  w_rng (snd r) = w_rng w /\
  w_heap (snd r) = w_heap w /\
  (forall line, line ∈ w_stderr (snd r) ->
                line ∈ w_stderr w \/ exists e, line = LTraceback e) /\
  (forall config data,
      e_config (w_env w) = Some config ->
      e_topic_feature (w_env w) = true ->
      e_input (w_env w) = Some data ->
      w_log (snd r) =
        w_log w ++ [EvLoadConfig; EvTopicLoad (a_topic_feature args);
                    EvReadInput (a_input args);
                    EvDataset (length (seq_dataset data)); EvModelInit]).
Proof.
  intros Htest Hlog r. subst r.
  unfold run_main, main, load_model, mbind, emit, external, modify, lift,
    os_path_join.
  rewrite Htest, Hlog. cbn.
  destruct (e_config (w_env w)) as [config|]; cbn.
  2:{ split_and!; try done.
      intros line Hin. apply elem_of_app in Hin as [?|Hin]; [by left|].
      apply list_elem_of_singleton in Hin as ->. eauto. }
  destruct (e_topic_feature (w_env w)); cbn.
  2:{ split_and!; try done.
      intros line Hin. apply elem_of_app in Hin as [?|Hin]; [by left|].
      apply list_elem_of_singleton in Hin as ->. eauto. }
  destruct (e_input (w_env w)) as [data|]; cbn.
  2:{ split_and!; try done.
      intros line Hin. apply elem_of_app in Hin as [?|Hin]; [by left|].
      apply list_elem_of_singleton in Hin as ->. eauto. }
  split_and!; try done.
  - intros line Hin. apply elem_of_app in Hin as [?|Hin]; [by left|].
    apply list_elem_of_singleton in Hin as ->. eauto.
  - intros config' data' [= <-] _ [= <-]. by rewrite <- !app_assoc.
Qed.
End EvaluationFacts.

(** ** The properties at work on the small instance *)

(** An evaluation over a set with no record labelled 1 ends in an uncaught
    [ZeroDivisionError]: exit status 1, a traceback, and no accuracy line. *)
Lemma missing_class_uncaught :
  fst (main (T := toy) (toy_args (Some "1.ckpt") (Some "logs") 2 1)
         (evaluation_world false_only_set)) = inl ZeroDivisionError /\
  fst (run_main (T := toy) (toy_args (Some "1.ckpt") (Some "logs") 2 1)
         (evaluation_world false_only_set)) = 1 /\
  w_stdout (snd (run_main (T := toy)
                   (toy_args (Some "1.ckpt") (Some "logs") 2 1)
                   (evaluation_world false_only_set))) = [] /\
  last (w_stderr (snd (run_main (T := toy)
                         (toy_args (Some "1.ckpt") (Some "logs") 2 1)
                         (evaluation_world false_only_set)))) =
    Some (LTraceback ZeroDivisionError).
Proof. vm_compute. repeat split. Qed.

Lemma missing_class_raises_witness :
  fst (run_main (T := toy) (toy_args (Some "1.ckpt") (Some "logs") 2 1)
         (evaluation_world false_only_set)) = 1.
Proof.
  pose proof (missing_class_raises (T := toy)
                (toy_args (Some "1.ckpt") (Some "logs") 2 1) toy_config
                (evaluation_world false_only_set)
                (snd (load_model (T := toy)
                        (toy_args (Some "1.ckpt") (Some "logs") 2 1)
                        toy_config
                        (snd (emit (T := toy) EvLoadConfig
                                (evaluation_world false_only_set)))))
                (snd (predict_loop (T := toy) false_only_loader toy_config
                        (snd (load_model (T := toy)
                                (toy_args (Some "1.ckpt") (Some "logs") 2 1)
                                toy_config
                                (snd (emit (T := toy) EvLoadConfig
                                        (evaluation_world
                                           false_only_set)))))))
                (@seq_dataset toy false_only_set) false_only_loader "cpu"
                [] [0; 1]) as H.
  apply H.
  - reflexivity.
  - reflexivity.
  - vm_compute. reflexivity.
  - vm_compute. reflexivity.
  - left. reflexivity.
Defined.

(** Evaluation mode without a log directory: the input has been read and
    the model built when the run dies of an uncaught [TypeError]; the usage
    message is printed nowhere. *)
Lemma missing_logdir_crashes :
  fst (main (T := toy) (toy_args (Some "1.ckpt") None 2 1)
         (toy_world example_set)) = inl TypeError /\
  w_log (snd (main (T := toy) (toy_args (Some "1.ckpt") None 2 1)
                (toy_world example_set))) =
    [EvLoadConfig; EvTopicLoad "topics"; EvReadInput "data.jsonl";
     EvDataset 4; EvModelInit] /\
  w_stdout (snd (run_main (T := toy) (toy_args (Some "1.ckpt") None 2 1)
                   (toy_world example_set))) = [] /\
  w_stderr (snd (run_main (T := toy) (toy_args (Some "1.ckpt") None 2 1)
                   (toy_world example_set))) = [LTraceback TypeError].
Proof. vm_compute. repeat split. Qed.

Lemma evaluation_needs_logdir_witness :
  fst (run_main (T := toy) (toy_args (Some "1.ckpt") None 2 1)
         (toy_world example_set)) <> 0.
Proof.
  exact (proj1 (evaluation_needs_logdir (T := toy)
                  (toy_args (Some "1.ckpt") None 2 1)
                  (toy_world example_set) eq_refl eq_refl)).
Defined.

(** The forward call of an evaluation pass runs with gradient tracking
    enabled. *)
Lemma predict_tracks_gradients :
  w_grad_enabled (toy_world example_set) = true /\
  w_log (snd (predict (T := toy) example_loader toy_config
                (toy_world example_set))) =
    [EvForward true 0 (replicate 8 0 : list (@scalar toy))].
Proof. vm_compute. split; reflexivity. Qed.

Lemma checkpoint_every_epoch_witness :
  exists opt' w',
    train_epoch (T := toy) (toy_args None (Some "logs") 2 3) example_loader
      0%nat (0%nat : @OptState toy) 0 training_world = (inr opt', w').
Proof.
  destruct (checkpoint_every_epoch (T := toy)
              (toy_args None (Some "logs") 2 3) example_loader
              0%nat (0%nat : @OptState toy) 0 training_world)
    as (opt' & w' & Hrun & _).
  - unfold h0_allocated. simpl. lia.
  - intros logdir dir p _ _ _. apply lookup_empty.
  - exists opt', w'. exact Hrun.
Defined.


(** * Further properties *)

(** ** What the accumulators count *)

Lemma py_sum_from (z : Z) (l : list Z) : foldl Z.add z l = z + py_sum l.
Proof.
  unfold py_sum. revert z. induction l as [|x l IH]; intros z; simpl; [lia|].
  rewrite (IH (z + x)), (IH (0 + x)). lia.
Qed.

Lemma py_sum_cons (x : Z) (l : list Z) : py_sum (x :: l) = x + py_sum l.
Proof. unfold py_sum at 1. simpl. apply py_sum_from. Qed.

Lemma py_sum_app (l1 l2 : list Z) : py_sum (l1 ++ l2) = py_sum l1 + py_sum l2.
Proof. unfold py_sum at 1. rewrite foldl_app. fold (py_sum l1). apply py_sum_from. Qed.

Lemma py_len_app (l1 l2 : list Z) : py_len (l1 ++ l2) = py_len l1 + py_len l2.
Proof. unfold py_len. rewrite length_app. lia. Qed.

Lemma outcomes_of_binary (pairs : list (Z * Z)) :
  Forall binary_pair pairs ->
  (length (true_outcomes pairs) + length (false_outcomes pairs))%nat =
    length pairs /\
  py_sum (true_outcomes pairs) + py_sum (false_outcomes pairs) =
    Z.of_nat (length (correct_pairs pairs)).
Proof.
  unfold true_outcomes, false_outcomes, correct_pairs.
  induction 1 as [|[o t] pairs [Ho Ht] _ [IHlen IHsum]]; [done|].
  rewrite !filter_cons. simpl in Ho, Ht. cbn [fst snd].
  destruct Ht as [-> | ->], Ho as [-> | ->];
    repeat (first [rewrite decide_True by (simpl; lia)
                  |rewrite decide_False by (simpl; lia)]);
    cbn [map length fst snd]; rewrite ?py_sum_cons; split; lia.
Qed.

(** X1: over a batch whose zipped predictions and labels are all 0 or 1,
    every record is counted exactly once and the accumulators' sum grows by
    the number of records predicted as labelled. *)
Theorem binary_batch_counts_correct
    (acc : list Z * list Z) (output labels : list Z) :
  Forall binary_pair (zip output labels) ->
  let acc' := account_batch acc output labels in
  py_len (fst acc' ++ snd acc') =
    py_len (fst acc ++ snd acc)
    + Z.of_nat (Nat.min (length output) (length labels)) /\
  py_sum (fst acc' ++ snd acc') =
    py_sum (fst acc ++ snd acc)
    + Z.of_nat (length (correct_pairs (zip output labels))).
Proof.
  intros Hbin acc'. subst acc'. unfold account_batch.
  rewrite account_outcomes. cbn [fst snd].
  destruct (outcomes_of_binary _ Hbin) as [Hlen Hsum].
  rewrite length_zip_with in Hlen.
  rewrite !py_len_app, !py_sum_app. unfold py_len in *. split; lia.
Qed.

Lemma binary_batch_counts_correct_witness :
  py_sum (fst (account_batch ([], []) [1; 0; 1; 0] [1; 1; 0; 0]) ++
          snd (account_batch ([], []) [1; 0; 1; 0] [1; 1; 0; 0])) =
    py_sum ([] ++ [])
    + Z.of_nat (length (correct_pairs (zip [1; 0; 1; 0] [1; 1; 0; 0]))).
Proof.
  refine (proj2 (binary_batch_counts_correct ([], []) [1; 0; 1; 0]
                   [1; 1; 0; 0] _)).
  repeat constructor; simpl; lia.
Defined.

(** ** More on the evaluation loop *)

Section EvaluationMore.
Context `{T : Torch}.

(** X2: once the loop has filled the accumulators, [predict] returns
    normally exactly when both are non-empty, and then it has printed the
    three accuracy lines, in order, the last one over the sums and the
    counts of both accumulators, and nothing on standard error. *)
Theorem predict_reports_three_ratios (dl : DataLoader) (config : ModelConfig)
    (w w1 : World) (true_acc false_acc : list Z) :
  predict_loop dl config w = (inr (true_acc, false_acc), w1) ->
  let r := predict dl config w in
  (fst r = inr tt <-> true_acc <> [] /\ false_acc <> []) /\
  (true_acc <> [] -> false_acc <> [] ->
   w_stdout (snd r) =
     w_stdout w1 ++
       [LAcc "True acc" (py_sum true_acc) (py_len true_acc)
          (py_sum true_acc # Z.to_pos (py_len true_acc));
        LAcc "False acc" (py_sum false_acc) (py_len false_acc)
          (py_sum false_acc # Z.to_pos (py_len false_acc));
        LAcc "Total acc" (py_sum true_acc + py_sum false_acc)
          (py_len true_acc + py_len false_acc)
          ((py_sum true_acc + py_sum false_acc)
             # Z.to_pos (py_len true_acc + py_len false_acc))] /\
   w_stderr (snd r) = w_stderr w1).
Proof.
  intros Hloop r. subst r. unfold predict, mbind. rewrite Hloop.
  rewrite <- (py_sum_app true_acc false_acc), <- (py_len_app true_acc false_acc).
  remember (true_acc ++ false_acc) as total eqn:Htotal.
  rewrite (print_acc_eq "True acc").
  destruct true_acc as [|x ta]; [simpl; split; [split|]; [done|tauto|done]|].
  cbn match. rewrite (print_acc_eq "False acc").
  destruct false_acc as [|y fa]; [simpl; split; [split|]; [done|tauto|done]|].
  cbn match. rewrite (print_acc_eq "Total acc").
  destruct total as [|z total]; [discriminate|].
  cbn -[py_sum py_len]. split; [done|]. intros _ _.
  rewrite <- !app_assoc. done.
Qed.

(** X3: the evaluation loop never resets the hidden-state buffer: the
    forward call of a batch is given the buffer as the forward call of the
    batch before left it, and leaves it to the next one. *)
Theorem evaluation_carries_hidden_state (h0 : nat) (acc : list Z * list Z)
    (b1 b2 : Seqs * Tweets * list Z) (w : World) (h : list scalar) :
  w_heap w !! h0 = Some h ->
  let h1 := snd (forward (w_params w) (fst (fst b1)) (snd (fst b1)) h) in
  let h2 := snd (forward (w_params w) (fst (fst b2)) (snd (fst b2)) h1) in
  let w' := snd (foldM (predict_batch h0) acc [b1; b2] w) in
  w_log w' =
    w_log w ++ [EvForward (w_grad_enabled w) h0 h;
                EvForward (w_grad_enabled w) h0 h1] /\
  w_heap w' !! h0 = Some h2.
Proof.
  intros Hh. destruct b1 as [[s1 t1] l1], b2 as [[s2 t2] l2].
  cbn [fst snd]. assert (Hlt := lookup_lt_Some _ _ _ Hh).
  cbn [foldM]. unfold predict_batch, mbind, call_model, mret. rewrite Hh.
  destruct (forward (w_params w) s1 t1 h) as [out1 h1]. cbn.
  rewrite list_lookup_insert_eq by done.
  destruct (forward (w_params w) s2 t2 h1) as [out2 h2]. cbn.
  rewrite <- app_assoc. split; [done|].
  apply list_lookup_insert_eq. by rewrite length_insert.
Qed.
End EvaluationMore.

Lemma predict_reports_three_ratios_witness :
  fst (predict (T := toy) example_loader toy_config (toy_world example_set))
    = inr tt <-> [1; 0] <> [] /\ [0; 1] <> [].
Proof.
  refine (proj1 (predict_reports_three_ratios (T := toy) example_loader
                   toy_config (toy_world example_set)
                   (snd (predict_loop (T := toy) example_loader toy_config
                           (toy_world example_set)))
                   [1; 0] [0; 1] _)).
  vm_compute. reflexivity.
Defined.

Lemma evaluation_carries_hidden_state_witness :
  w_heap (snd (foldM (predict_batch (T := toy) 0) ([], [])
                 [([1], tt, [1]); ([0], tt, [0])] training_world)) !! 0%nat =
    Some (snd (@forward toy (w_params training_world) [0] tt
                 (snd (@forward toy (w_params training_world) [1] tt
                         [0; 0; 0; 0])))).
Proof.
  exact (proj2 (evaluation_carries_hidden_state (T := toy) 0 ([], [])
                  ([1], tt, [1]) ([0], tt, [0]) training_world [0; 0; 0; 0]
                  eq_refl)).
Defined.

(** ** More on the training loop *)

Section TrainingMore.
Context `{T : Torch}.
















(** X7: with an epoch count of zero or less (on the CPU, with a valid
    buffer shape and a learning rate [optim.Adam] accepts, one that is not
    negative) the training loop runs no epoch:
    [train] returns normally having only allocated the hidden-state
    buffer; no call is made on the model or the optimiser, the parameters
    are untouched, nothing is printed on standard output, the sampler is
    not drawn and no file or directory is written. *)
Theorem training_without_epochs (args : Args) (dl : DataLoader)
    (config : ModelConfig) (w : World) :
  a_epoch args <= 0 ->
  0 <= rnn_layers config ->
  0 <= hidden_size config ->
  (0 <= a_learning_rate args)%Q ->
  w_device w = "cpu" ->
  let r := train args dl config w in
  fst r = inr tt /\
  w_heap (snd r) =
    w_heap w ++
      [replicate
         (Z.to_nat (rnn_layers config * Z.of_nat (dl_batch_size dl)
                    * hidden_size config))
         szero] /\
  w_log (snd r) = w_log w /\
  w_params (snd r) = w_params w /\
  w_grads (snd r) = w_grads w /\
  w_stdout (snd r) = w_stdout w /\
  w_rng (snd r) = w_rng w /\
  w_files (snd r) = w_files w /\
  w_dirs (snd r) = w_dirs w.
Proof.
  intros He Hr Hs _ _ r. subst r. unfold train, mbind, gets, torch_zeros.
  assert (Hdims : forallb (fun d => 0 <=? d)
                    [rnn_layers config; Z.of_nat (dl_batch_size dl);
                     hidden_size config] = true).
  { simpl. rewrite !andb_true_iff, !Z.leb_le. lia. }
  rewrite Hdims. unfold py_range.
  replace (Z.to_nat (a_epoch args)) with 0%nat by lia. cbn.
  split_and!; try done. do 3 f_equal. lia.
Qed.

Lemma zeroed_same_shape (h h' : list scalar) :
  length h = length h' ->
  map (fun _ => szero) h = map (fun _ => szero) h'.
Proof.
  revert h'. induction h as [|x h IH]; intros [|y h'] Hlen; simpl in *;
    try discriminate; [done|]. f_equal. apply IH. lia.
Qed.

(** X8: what a training step leaves behind does not reach the next one:
    the outcome of a batch is the same whatever gradients were accumulated
    before it and whatever the hidden-state buffer held, as long as the
    buffer has the same shape. *)
Theorem train_batch_isolated (h0 : nat) (opt : OptState)
    (sb : nat * (Seqs * Tweets * list Z)) (w : World)
    (g : Grads) (h h_old : list scalar) :
  w_heap w !! h0 = Some h_old ->
  length h = length h_old ->
  train_batch h0 opt sb (set_heap (<[h0 := h]> (w_heap w)) (set_grads g w)) =
    train_batch h0 opt sb w.
Proof.
  intros Hh Hlen. destruct sb as [step [[s t] l]].
  assert (Hlt := lookup_lt_Some _ _ _ Hh).
  assert (Hzero : alter (fun h1 : list scalar => map (fun _ => szero) h1) h0
                    (<[h0 := h]> (w_heap w)) =
                  alter (fun h1 : list scalar => map (fun _ => szero) h1) h0
                    (w_heap w)).
  { apply list_eq. intros i. rewrite !list_lookup_alter.
    destruct (decide (h0 = i)) as [<-|Hne].
    - rewrite list_lookup_insert_eq, Hh by done. simpl.
      by rewrite (zeroed_same_shape h h_old).
    - by rewrite list_lookup_insert_ne. }
  unfold train_batch, mbind, modify, zero_. cbn -[Nat.modulo].
  rewrite Hzero. reflexivity.
Qed.
End TrainingMore.

(** ** More on load_model and the entry point *)

Section EntryMore.
Context `{T : Torch}.

Lemma load_model_frame (args : Args) (config : ModelConfig) (w : World) :
  let w' := snd (load_model args config w) in
  w_files w' = w_files w /\ w_dirs w' = w_dirs w /\ w_heap w' = w_heap w /\
  w_rng w' = w_rng w /\ w_stderr w' = w_stderr w /\ w_env w' = w_env w.
Proof.
  unfold load_model, mbind, emit, external, modify, lift, os_path_join,
    torch_load, load_state_dict, require_logdir, sys_exit, raise, print,
    mret, DataLoader_new.
  cbn.
  repeat (case_match; simplify_eq/=; try done).
Qed.

Lemma load_model_eval (args : Args) (config : ModelConfig) (w : World)
    (logdir test : string) (data : list Raw) (ck : Checkpoint) :
  a_logdir args = Some logdir ->
  a_test args = Some test ->
  test <> EmptyString ->
  e_topic_feature (w_env w) = true ->
  e_input (w_env w) = Some data ->
  w_files w !! path_join logdir test = Some ck ->
  state_dict_matches (init_params config) (ck_state_dict ck) = true ->
  0 < a_batch_size args ->
  exists dl w',
    load_model args config w =
      (inr (seq_dataset data, dl, select_device (a_cuda args)), w') /\
    dl_dataset dl = seq_dataset data /\
    Z.of_nat (dl_batch_size dl) = a_batch_size args /\
    w_params w' = ck_state_dict ck /\
    w_device w' = select_device (a_cuda args) /\
    w_stdout w' = w_stdout w.
Proof.
  intros Hlog Htest Hne Htopic Hinput Hck Hmatch Hbs.
  unfold load_model, mbind, emit, external, modify, lift, os_path_join,
    torch_load, load_state_dict, require_logdir, sys_exit, raise, print,
    mret, DataLoader_new.
  rewrite Hlog, Htest. cbn. rewrite Htopic. cbn. rewrite Hinput. cbn.
  destruct test as [|c test]; [done|]. cbn. rewrite Hck. cbn.
  rewrite Hmatch. cbn.
  destruct (Z.leb_spec (a_batch_size args) 0); [lia|]. cbn.
  eexists _, _. split; [reflexivity|]. cbn. split_and!; try done. lia.
Qed.

Lemma load_model_mismatch (args : Args) (config : ModelConfig) (w : World)
    (logdir test : string) (data : list Raw) (ck : Checkpoint) :
  a_logdir args = Some logdir ->
  a_test args = Some test ->
  test <> EmptyString ->
  e_topic_feature (w_env w) = true ->
  e_input (w_env w) = Some data ->
  w_files w !! path_join logdir test = Some ck ->
  state_dict_matches (init_params config) (ck_state_dict ck) = false ->
  fst (load_model args config w) = inl RuntimeError /\
  w_params (snd (load_model args config w)) = init_params config.
Proof.
  intros Hlog Htest Hne Htopic Hinput Hck Hmatch.
  unfold load_model, mbind, emit, external, modify, lift, os_path_join,
    torch_load, load_state_dict.
  rewrite Hlog, Htest. cbn. rewrite Htopic. cbn. rewrite Hinput. cbn.
  destruct test as [|c test]; [done|]. cbn. rewrite Hck. cbn.
  rewrite Hmatch. cbn. done.
Qed.




Lemma predict_batch_files (h0 : nat) (acc : list Z * list Z)
    (batch : Seqs * Tweets * list Z) (w : World) :
  h0_allocated h0 w ->
  (w_files (snd (predict_batch h0 acc batch w)) = w_files w /\
   w_dirs (snd (predict_batch h0 acc batch w)) = w_dirs w /\
   length (w_heap (snd (predict_batch h0 acc batch w))) = length (w_heap w)) /\
  exists acc', fst (predict_batch h0 acc batch w) = inr acc'.
Proof.
  intros Hh. apply lookup_lt_is_Some_2 in Hh as [h Hh].
  destruct batch as [[s t] l].
  unfold predict_batch, mbind, call_model, mret. rewrite Hh.
  destruct (forward _ _ _ _) as [out h'] eqn:Hf. cbn.
  split; [|by eexists]. simpl.
  split_and!; [done|done|by rewrite length_insert].
Qed.

Lemma predict_files (dl : DataLoader) (config : ModelConfig) (w : World) :
  w_files (snd (predict dl config w)) = w_files w /\
  w_dirs (snd (predict dl config w)) = w_dirs w.
Proof.
  assert (Hloop : w_files (snd (predict_loop dl config w)) = w_files w /\
                  w_dirs (snd (predict_loop dl config w)) = w_dirs w).
  { unfold predict_loop, mbind, torch_zeros, dl_iter.
    destruct (forallb _ _); [|done].
    set (w1 := set_rng _ _). set (h0 := length (w_heap w)).
    assert (Hh : h0_allocated h0 w1).
    { unfold h0_allocated, w1, h0. simpl. rewrite length_app. simpl. lia. }
    destruct (foldM_rel
                (fun v v' : World =>
                   w_files v' = w_files v /\ w_dirs v' = w_dirs v /\
                   length (w_heap v') = length (w_heap v))
                (h0_allocated h0) (predict_batch h0)) with
        (l := map collate_fn (sample_batches dl (w_rng w)))
        (a := (([], []) : list Z * list Z)) (w := w1)
      as [(Hf & Hd & _) _]; try done.
    - intros v1 v2 v3 (? & ? & ?) (? & ? & ?). split_and!; congruence.
    - unfold h0_allocated. intros v v' ? (_ & _ & ->). done.
    - apply predict_batch_files. }
  unfold predict, mbind.
  destruct (predict_loop dl config w) as [[e|[ta fa]] w1]; [done|].
  simpl in Hloop. rewrite !print_acc_eq.
  destruct ta as [|x ta]; [done|]. cbn match. rewrite print_acc_eq.
  destruct fa as [|y fa]; [done|]. cbn match. rewrite print_acc_eq.
  destruct ((x :: ta) ++ y :: fa); done.
Qed.

(** X11: an evaluation run never writes a checkpoint: whatever the command
    line, the environment and the outcome, a run in evaluation mode leaves
    every file and every directory as it found them. *)
Theorem evaluation_writes_no_file (args : Args) (w : World) :
  truthy_str (a_test args) = true ->
  w_files (snd (run_main args w)) = w_files w /\
  w_dirs (snd (run_main args w)) = w_dirs w.
Proof.
  intros Htest.
  assert (Hmain : w_files (snd (main args w)) = w_files w /\
                  w_dirs (snd (main args w)) = w_dirs w).
  { unfold main, mbind, emit, external, modify.
    cbn -[load_model predict train].
    destruct (e_config (w_env w)) as [config|]; [|done].
    set (w0 := set_log _ w).
    pose proof (load_model_frame args config w0) as (Hf & Hd & _).
    destruct (load_model args config w0) as [[e|[[ds dl] dev]] w1];
      subst w0; simpl in Hf, Hd; [done|].
    rewrite Htest. unfold require_logdir.
    destruct (a_logdir args) as [logdir|].
    - cbn -[predict]. destruct (predict_files dl config w1) as [Hf' Hd'].
      split; congruence.
    - done. }
  unfold run_main. destruct (main args w) as [[e|[]] w']; simpl in *;
    [|done]. by destruct e.
Qed.
(** X13: evaluation mode is selected by the truthiness of [--test], not by
    its presence: with an empty checkpoint name the program does exactly
    what it does without the option, that is, it trains. *)
Theorem empty_test_selects_training (args : Args) (w : World) :
  a_test args = Some EmptyString ->
  main args w = main (with_test None args) w.
Proof.
  intros Htest. destruct args as [c cu ld t i tf lr bs ep].
  simpl in Htest. subst t. reflexivity.
Qed.

Lemma path_join_absolute (a b : string) :
  starts_with_sep b = true -> path_join a b = b.
Proof. unfold path_join. by intros ->. Qed.

Lemma ckpt_name_not_empty (n : Z) : ckpt_name n <> EmptyString.
Proof.
  unfold ckpt_name. destruct (pretty n); discriminate.
Qed.

Lemma train_run_files (args : Args) (dl : DataLoader) (config : ModelConfig)
    (w : World) (logdir : string) :
  a_logdir args = Some logdir ->
  0 <= rnn_layers config ->
  0 <= hidden_size config ->
  exists w',
    train args dl config w = (inr tt, w') /\
    w_env w' = w_env w /\
    forall N, 1 <= N <= a_epoch args ->
      exists ck,
        w_files w' !! path_join (path_join (e_script_dir (w_env w)) logdir)
                        (ckpt_name N) = Some ck /\
        ck_epoch ck = N - 1.
Proof.
  intros Hlog Hr Hs. unfold train, mbind, gets, torch_zeros.
  assert (Hdims : forallb (fun d => 0 <=? d)
                    [rnn_layers config; Z.of_nat (dl_batch_size dl);
                     hidden_size config] = true).
  { simpl. rewrite !andb_true_iff, !Z.leb_le. lia. }
  rewrite Hdims.
  set (w1 := set_heap _ w). set (opt := adam_init _ _).
  assert (Hh : h0_allocated (length (w_heap w)) w1).
  { unfold h0_allocated, w1. simpl. rewrite length_app. simpl. lia. }
  destruct (train_epochs_files args dl (length (w_heap w)) logdir
              (path_join (e_script_dir (w_env w)) logdir)
              (py_range (a_epoch args)) Hlog (NoDup_py_range _) opt w1 Hh
              eq_refl)
    as (o & w' & -> & (_ & Henv & _) & Hsaved & _).
  exists w'. split; [reflexivity|]. split; [exact Henv|].
  intros N HN. destruct (Hsaved (N - 1)) as (ck & Hck & Hep).
  { apply elem_of_py_range. lia. }
  exists ck. replace (N - 1 + 1) with N in Hck by lia. done.
Qed.

(** X14: a checkpoint written by a training run on the CPU under an
    absolute log directory is the one an evaluation run on the CPU with
    the same log directory and [--test N.ckpt] reads: for every N from 1
    to the number of epochs the file is the entry N.ckpt of the log
    directory and holds
    epoch index N-1; [load_model] on the world the training left restores
    its state when that state matches the model built from the evaluation
    configuration, and raises [RuntimeError] when it does not.  The
    training run is one that [optim.Adam] accepts (a learning rate that is
    not negative) and that finds no checkpoint file standing where the
    log directory or one of its parents must be. *)
Theorem checkpoint_round_trip (args : Args) (dl : DataLoader)
    (config config' : ModelConfig) (w : World) (logdir : string)
    (data : list Raw) (N : Z) :
  truthy_int (a_cuda args) = false ->
  a_logdir args = Some logdir ->
  starts_with_sep logdir = true ->
  0 <= rnn_layers config ->
  0 <= hidden_size config ->
  (0 <= a_learning_rate args)%Q ->
  w_device w = "cpu" ->
  (forall p, p ∈ logdir :: parents logdir -> w_files w !! p = None) ->
  1 <= N <= a_epoch args ->
  e_topic_feature (w_env w) = true ->
  e_input (w_env w) = Some data ->
  0 < a_batch_size args ->
  let w1 := snd (train args dl config w) in
  let r := load_model (with_test (Some (pretty N +:+ ".ckpt")) args)
             config' w1 in
  exists ck file,
    entry_of logdir (pretty N +:+ ".ckpt") file /\
    w_files w1 !! file = Some ck /\
    ck_epoch ck = N - 1 /\
    (state_dict_matches (init_params config') (ck_state_dict ck) = true ->
     (exists loaded, fst r = inr loaded) /\
     w_params (snd r) = ck_state_dict ck) /\
    (state_dict_matches (init_params config') (ck_state_dict ck) = false ->
     fst r = inl RuntimeError).
Proof.
  intros Hcpu Hlog Habs Hr Hs _ _ _ HN Htopic Hinput Hbs w1 r. subst w1 r.
  destruct (train_run_files args dl config w logdir Hlog Hr Hs)
    as (w1 & -> & Henv & Hsaved).
  destruct (Hsaved N HN) as (ck & Hck & Hep).
  rewrite (path_join_absolute _ logdir Habs) in Hck. cbn [snd].
  exists ck, (path_join logdir (ckpt_name N)).
  split; [apply (path_join_entry logdir (ckpt_name N)), ckpt_name_no_sep|].
  split; [exact Hck|]. split; [exact Hep|]. split.
  - intros Hmatch.
    destruct (load_model_eval (with_test (Some (ckpt_name N)) args) config' w1
                logdir (ckpt_name N) data ck)
      as (dl' & w2 & Hrun & _ & _ & Hp & _); try done.
    + apply ckpt_name_not_empty.
    + by rewrite Henv.
    + by rewrite Henv.
    + unfold ckpt_name in Hrun. rewrite Hrun. simpl.
      split; [by eexists|done].
  - intros Hmatch.
    destruct (load_model_mismatch (with_test (Some (ckpt_name N)) args)
                config' w1 logdir (ckpt_name N) data ck) as [Hfail _];
      try done.
    + apply ckpt_name_not_empty.
    + by rewrite Henv.
    + by rewrite Henv.
Qed.
End EntryMore.

(** ** The further properties at work on the small instance *)




Lemma training_without_epochs_witness :
  fst (train (T := toy) (toy_args None (Some "logs") 2 0) example_loader
         toy_config (toy_world example_set)) = inr tt.
Proof.
  refine (proj1 (training_without_epochs (T := toy)
                   (toy_args None (Some "logs") 2 0) example_loader
                   toy_config (toy_world example_set) _ _ _ _ eq_refl)).
  - simpl. lia.
  - simpl. lia.
  - simpl. lia.
  - unfold Qle. simpl. lia.
Defined.

Lemma train_batch_isolated_witness :
  train_batch (T := toy) 0 (0%nat : @OptState toy) (0%nat, ([1], tt, [1]))
    (set_heap (<[0%nat := ([5; 5; 5; 5] : list (@scalar toy))]>
                 (w_heap training_world))
       (set_grads (9 : @Grads toy) training_world)) =
  train_batch (T := toy) 0 (0%nat : @OptState toy) (0%nat, ([1], tt, [1]))
    training_world.
Proof.
  apply (train_batch_isolated (T := toy) 0 (0%nat : @OptState toy)
           (0%nat, ([1], tt, [1])) training_world (9 : @Grads toy)
           ([5; 5; 5; 5] : list (@scalar toy))
           ([0; 0; 0; 0] : list (@scalar toy))).
  - reflexivity.
  - reflexivity.
Defined.



Lemma evaluation_writes_no_file_witness :
  w_files (snd (run_main (T := toy)
                  (toy_args (Some "1.ckpt") (Some "logs") 2 1)
                  (evaluation_world example_set))) =
    w_files (evaluation_world example_set) /\
  w_dirs (snd (run_main (T := toy)
                 (toy_args (Some "1.ckpt") (Some "logs") 2 1)
                 (evaluation_world example_set))) =
    w_dirs (evaluation_world example_set).
Proof.
  exact (evaluation_writes_no_file (T := toy)
           (toy_args (Some "1.ckpt") (Some "logs") 2 1)
           (evaluation_world example_set) eq_refl).
Defined.


Lemma empty_test_selects_training_witness :
  main (T := toy) (toy_args (Some EmptyString) None 2 1)
    (toy_world example_set) =
  main (T := toy) (with_test None (toy_args (Some EmptyString) None 2 1))
    (toy_world example_set).
Proof.
  exact (empty_test_selects_training (T := toy)
           (toy_args (Some EmptyString) None 2 1) (toy_world example_set)
           eq_refl).
Defined.

Lemma checkpoint_round_trip_witness :
  exists ck file,
    entry_of "/logs" "2.ckpt" file /\
    w_files (snd (train (T := toy) (toy_args None (Some "/logs") 2 3)
                    example_loader toy_config (toy_world example_set)))
      !! file = Some ck /\
    ck_epoch ck = 2 - 1.
Proof.
  destruct (checkpoint_round_trip (T := toy)
              (toy_args None (Some "/logs") 2 3) example_loader toy_config
              toy_config (toy_world example_set) "/logs"
              (example_set : list (@Raw toy)) 2)
    as (ck & file & Hfile & Hck & Hep & _).
  - reflexivity.
  - reflexivity.
  - reflexivity.
  - simpl. lia.
  - simpl. lia.
  - unfold Qle. simpl. lia.
  - reflexivity.
  - intros p _. apply lookup_empty.
  - simpl. lia.
  - reflexivity.
  - reflexivity.
  - simpl. lia.
  - exists ck, file. split; [exact Hfile|]. split; [exact Hck|exact Hep].
Defined.

(** ** One pass of evaluation, and the loader's batch size *)

Section PassFacts.
Context `{T : Torch}.



End PassFacts.


